(** * Steepest descent: [moola/algorithms/steepest_descent.py]

    A shallow embedding of [SteepestDescent.__init__] and
    [SteepestDescent.solve], and the properties of the convergence loop.

    The source is Python 2 ([print] statements, [has_key], [raise E, msg]).
    Floats are idealised as rationals ([Q]); Python's unbounded [int] is [Z].
    Iterates are mutable objects: they live in a store and are handled through
    their locations, so that cloning, in-place [axpy] and aliasing are visible.
    The collaborators the file imports ([Solution], [get_line_search_method],
    the objective, the iterate class, the line search, the hooks) are taken as
    capabilities, with these conventions:
    - the objective and the iterate arithmetic are total functions on the
      content of iterates; they read their arguments and change none;
    - [obj.gradient], the copy constructor and unary minus return new objects;
    - the line search sees the solver through [phi] and [phi_dphi] only, asks
      finitely often, and accepts a step length or raises;
    - hooks, the callback and [print] are recorded as events of a trace;
    - [while True] is run with a fuel argument: [OutOfFuel] says that the
      passes allowed were used up, every other result is Python's. *)

From Stdlib Require Import ZArith QArith Qabs List Ascii String Bool Lia Lqa.
From Stdlib Require Import DecimalString DecimalZ.
Import ListNotations.
Close Scope Q_scope.

(* ===================================================================== *)
(** ** Python 2 values and their ordering                                *)
(* ===================================================================== *)

(** The convergence test and the final report compare objects of different
    types ([True > tol], [x > None], [iter <= maxiter]).  CPython 2 orders any
    two objects: numbers ([bool], [int], [float]) compare by value; otherwise
    [None] is smaller than anything; otherwise objects of different types
    compare by type name, a number counting as the empty name. *)
Module Py.

Inductive value : Type :=
| PyNone
| PyBool (b : bool)
| PyInt (n : Z)
| PyFloat (q : Q)
| PyIter.   (* the built-in function [iter] *)

(** The numeric reading of a value: [True] is 1 and [False] is 0. *)
Definition number (v : value) : option Q :=
  match v with
  | PyBool b => Some (if b then 1 else 0)%Q
  | PyInt n => Some (inject_Z n)
  | PyFloat q => Some q
  | PyNone | PyIter => None
  end.

(** Three-way comparison, CPython 2's [default_3way_compare] below the
    numeric case.  [PyIter] against [PyIter] is one object against itself;
    [PyIter] against a number compares "builtin_function_or_method" with "". *)
Definition cmp (v w : value) : comparison :=
  match number v, number w with
  | Some a, Some b => (a ?= b)%Q
  | _, _ =>
    match v, w with
    | PyNone, PyNone => Eq
    | PyNone, _ => Lt
    | _, PyNone => Gt
    | PyIter, PyIter => Eq
    | PyIter, _ => Gt
    | _, PyIter => Lt
    | _, _ => Eq   (* two numbers: decided above *)
    end
  end.

Definition gt (v w : value) : bool :=
  match cmp v w with Gt => true | _ => false end.

Definition lt (v w : value) : bool :=
  match cmp v w with Lt => true | _ => false end.

Definition le (v w : value) : bool :=
  match cmp v w with Gt => false | _ => true end.

(** An optional float or int attribute as a Python value. *)
Definition of_float (x : option Q) : value :=
  match x with Some q => PyFloat q | None => PyNone end.

Definition of_int (x : option Z) : value :=
  match x with Some n => PyInt n | None => PyNone end.

End Py.

(** [x == None] and [x != None] on an optional attribute. *)
Definition is_None {A : Type} (x : option A) : bool :=
  match x with None => true | Some _ => false end.

Definition not_None {A : Type} (x : option A) : bool := negb (is_None x).

(* ===================================================================== *)
(** ** The capabilities [solve] consumes                                 *)
(* ===================================================================== *)

(** The content of an iterate, with the arithmetic the solver calls.
    [v_axpy a x self] is the content of [self] after [self.axpy(a, x)]. *)
Class Iterate (V : Type) : Type := {
  v_axpy : Q -> V -> V -> V;
  v_inner : V -> V -> Q;
  v_norm : V -> Q;          (* norm("L2") *)
  v_neg : V -> V            (* unary minus *)
}.

(** The objective: [obj(m)], [obj.gradient(m)], [obj.derivative(m)(d)]. *)
Record Objective (V : Type) : Type := {
  value : V -> Q;
  gradient : V -> V;
  derivative : V -> V -> Q
}.
Arguments value {V} _ _.
Arguments gradient {V} _ _.
Arguments derivative {V} _ _ _.

Record Problem (V : Type) : Type := { obj : Objective V }.
Arguments obj {V} _.

(** A line search is known to the solver only through [search(phi, phi_dphi)]:
    it queries the two functions finitely often and then accepts a step length
    or raises.  The tree is its strategy. *)
Inductive LineSearch : Type :=
| Accept (alpha : Q)
| GiveUp
| AskPhi (alpha : Q) (k : Q -> LineSearch)
| AskPhiDphi (alpha : Q) (k : Q * Q -> LineSearch).

(** A user function (hook or callback), known by a label. *)
Definition callable := string.

Definition loc := nat.

Inductive message : Type :=
| MaxIterReached                 (* "Maximum number of iterations reached." *)
| GtolReached (it : Z)           (* "Tolerance reached: |dJ| < gtol in %i iterations." *)
| TolReached (it : Z).           (* "Tolerance reached: |delta j| < tol in %i interations." *)

(** What the solver does to the outside: the calls and the printed lines. *)
Inductive event (V : Type) : Type :=
| EvGradient (x : V) (g : loc)        (* obj.gradient on content x returned object g *)
| EvHook (key : string) (f : callable) (j : Q) (g : loc) (gv : V)
| EvIteration (it : Z) (j : Q) (n : Q)  (* "Iteration %i\tJ = %s\t|dJ| = %s" *)
| EvSearch                            (* self.ls.search(phi, phi_dphi) entered *)
| EvCallback (f : callable) (j : Q) (d : loc) (m : loc)
| EvPrint (msg : message).
Arguments EvGradient {V} _ _.
Arguments EvHook {V} _ _ _ _ _.
Arguments EvIteration {V} _ _ _.
Arguments EvSearch {V}.
Arguments EvCallback {V} _ _ _ _.
Arguments EvPrint {V} _.

Inductive exn : Type :=
| RuntimeError (msg : string)
| LineSearchError.

(** The result of a computation; [OutOfFuel] marks a loop cut by the fuel of
    the model, it is no Python result. *)
Inductive result (A : Type) : Type :=
| Ok (a : A)
| Raise (e : exn)
| OutOfFuel.
Arguments Ok {A} _.
Arguments Raise {A} _.
Arguments OutOfFuel {A}.

(** The options dictionary of [__init__]: an entry is absent ([None]) or
    present with its value, which may itself be Python's [None]. *)
Definition LsOptions := list (string * Py.value).

Record Options : Type := {
  o_gtol : option (option Q);
  o_maxiter : option (option Z);
  o_disp : option bool;
  o_line_search : option string;
  o_line_search_options : option LsOptions;
  o_callback : option (option callable)
}.

(** [d.get(key, default)]. *)
Definition get {A : Type} (entry : option A) (default : A) : A :=
  match entry with Some a => a | None => default end.

Definition Hooks := list (string * callable).

(** [hooks.has_key(k)] and [hooks[k]]; the source reads [hooks[k]] only
    under [has_key(k)]. *)
Definition has_key (hooks : Hooks) (k : string) : bool :=
  existsb (fun e => String.eqb (fst e) k) hooks.

Definition getitem (hooks : Hooks) (k : string) : callable :=
  match find (fun e => String.eqb (fst e) k) hooks with
  | Some e => snd e
  | None => EmptyString
  end.

(** The attributes [__init__] sets. *)
Record SteepestDescent : Type := {
  tol : option Q;
  gtol : option Q;
  maxiter : option Z;
  disp : bool;
  line_search : string;
  line_search_options : LsOptions;
  ls : LineSearch;
  callback : option callable;
  hooks : Hooks
}.

Record Solution : Type := {
  Optimizer : loc;
  Number_of_iterations : Z
}.

(** [__init__], lines 27-36.  [get_line_search_method] is imported from
    [optimisation_algorithm], which is not part of the sources: it is a
    parameter, and the only call that can fail.  [tol] is the argument as
    passed ([1e-4] when the caller leaves it out); the other settings come
    from [options] with the defaults of lines 29-35. *)
Definition __init__
    (get_line_search_method : string -> LsOptions -> result LineSearch)
    (tol : option Q) (options : Options) (hooks : Hooks)
  : result SteepestDescent :=
  let gtol := get (o_gtol options) (Some (1 # 10000)%Q) in
  let maxiter := get (o_maxiter options) (Some 200%Z) in
  let disp := get (o_disp options) true in
  let line_search := get (o_line_search options) "strong_wolfe"%string in
  let line_search_options := get (o_line_search_options options) [] in
  match get_line_search_method line_search line_search_options with
  | Ok ls =>
    Ok {| tol := tol; gtol := gtol; maxiter := maxiter; disp := disp;
          line_search := line_search;
          line_search_options := line_search_options;
          ls := ls;
          callback := get (o_callback options) None;
          hooks := hooks |}
  | Raise e => Raise e
  | OutOfFuel => OutOfFuel
  end.







(* ===================================================================== *)
(** ** The store, and computations over it                               *)
(* ===================================================================== *)

Section Solver.

Context {V : Type} {IV : Iterate V}.

(** The objects allocated so far are the locations below [next]; [trace] is
    the list of events, oldest first. *)
Record state : Type := {
  cells : loc -> V;
  next : loc;
  trace : list (event V)
}.

Definition M (A : Type) : Type := state -> result A * state.

Definition ret {A : Type} (a : A) : M A := fun st => (Ok a, st).

Definition bind {A B : Type} (c : M A) (k : A -> M B) : M B :=
  fun st =>
    match c st with
    | (Ok a, st') => k a st'
    | (Raise e, st') => (Raise e, st')
    | (OutOfFuel, st') => (OutOfFuel, st')
    end.

Notation "x <- c ;; k" := (bind c (fun x => k))
  (at level 61, c at next level, right associativity).
Notation "c ;; k" := (bind c (fun _ => k))
  (at level 61, right associativity).

Definition raise {A : Type} (e : exn) : M A := fun st => (Raise e, st).

Definition out_of_fuel {A : Type} : M A := fun st => (OutOfFuel, st).

Definition emit (e : event V) : M unit :=
  fun st => (Ok tt, {| cells := cells st; next := next st;
                       trace := trace st ++ [e] |}).

Definition when (b : bool) (c : M unit) : M unit :=
  if b then c else ret tt.

Definition read (l : loc) : M V := fun st => (Ok (cells st l), st).

Definition write (l : loc) (x : V) : M unit :=
  fun st => (Ok tt, {| cells := fun l' => if Nat.eqb l' l then x else cells st l';
                       next := next st; trace := trace st |}).

Definition alloc (x : V) : M loc :=
  fun st => (Ok (next st),
             {| cells := fun l' => if Nat.eqb l' (next st) then x else cells st l';
                next := S (next st); trace := trace st |}).

(** *** The iterate's methods, on objects *)

(** [m.__class__(m)]: the copy constructor, a new object with the content of
    [m]. *)
Definition clone (m : loc) : M loc :=
  x <- read m ;; alloc x.

(** [self.axpy(a, x)]: in place, [self += a*x]. *)
Definition axpy (self : loc) (a : Q) (x : loc) : M unit :=
  xv <- read x ;;
  sv <- read self ;;
  write self (v_axpy a xv sv).

Definition inner (self other : loc) : M Q :=
  sv <- read self ;;
  ov <- read other ;;
  ret (v_inner sv ov).

Definition norm (self : loc) : M Q :=
  sv <- read self ;; ret (v_norm sv).

(** [-x]: a new object. *)
Definition neg (x : loc) : M loc :=
  xv <- read x ;; alloc (v_neg xv).

(** *** The objective's methods, on objects.  They read their argument and
    leave it as it is; [gradient] returns a new object. *)

Definition call (o : Objective V) (m : loc) : M Q :=
  x <- read m ;; ret (value o x).

Definition call_gradient (o : Objective V) (m : loc) : M loc :=
  x <- read m ;;
  g <- alloc (gradient o x) ;;
  emit (EvGradient x g) ;;
  ret g.

Definition call_derivative (o : Objective V) (m d : loc) : M Q :=
  x <- read m ;;
  dv <- read d ;;
  ret (derivative o x dv).

(** [self.hooks[key](j, grad)]. *)
Definition call_hook (self : SteepestDescent) (key : string) (j : Q) (grad : loc)
  : M unit :=
  gv <- read grad ;;
  emit (EvHook key (getitem (hooks self) key) j grad gv).

(** [search(phi, phi_dphi)] run against the solver's two closures. *)
Fixpoint run_search (t : LineSearch) (phi : Q -> M Q) (phi_dphi : Q -> M (Q * Q))
  : M Q :=
  match t with
  | Accept alpha => ret alpha
  | GiveUp => raise LineSearchError
  | AskPhi a k => p <- phi a ;; run_search (k p) phi phi_dphi
  | AskPhiDphi a k => r <- phi_dphi a ;; run_search (k r) phi phi_dphi
  end.

Definition search (t : LineSearch) (phi : Q -> M Q) (phi_dphi : Q -> M (Q * Q))
  : M Q :=
  emit EvSearch ;; run_search t phi phi_dphi.

(* ===================================================================== *)
(** ** [SteepestDescent.solve]                                           *)
(* ===================================================================== *)

(** Lines 89-93. *)
Definition phi (o : Objective V) (m_prev grad : loc) (alpha : Q) : M Q :=
  tmpm <- clone m_prev ;;
  axpy tmpm (- alpha) grad ;;
  call o tmpm.

(** Lines 95-101. *)
Definition phi_dphi (o : Objective V) (m_prev grad : loc) (alpha : Q)
  : M (Q * Q) :=
  tmpm <- clone m_prev ;;
  axpy tmpm (- alpha) grad ;;
  p <- phi o m_prev grad alpha ;;
  d <- call_derivative o tmpm grad ;;
  let djs := (- d)%Q in
  ret (p, djs).

(** The left operand of [> self.tol] on line 78:
    [(self.tol == None or j == None or j_prev == None or abs(j-j_prev))].
    [or] yields its first true operand, else its last one.  [j] holds a float
    here, so [j == None] is [False]; the last operand is the value of the
    chain whatever its truth value. *)
Definition functional_change_operand (self : SteepestDescent)
    (j : Q) (j_prev : option Q) : Py.value :=
  if is_None (tol self) then Py.PyBool true
  else match j_prev with
       | None => Py.PyBool true
       | Some jp => Py.PyFloat (Qabs (j - jp))
       end.

(** Lines 77-79: the condition under [not]; the loop breaks when it is false.
    [n] is [grad.norm("L2")]. *)
Definition keep_going (self : SteepestDescent)
    (n : Q) (j : Q) (j_prev : option Q) (it : Z) : bool :=
  (is_None (gtol self) || Py.gt (Py.PyFloat n) (Py.of_float (gtol self)))
  && Py.gt (functional_change_operand self j j_prev) (Py.of_float (tol self))
  && (is_None (maxiter self) || Py.lt (Py.PyInt it) (Py.of_int (maxiter self))).

(** The variables of the loop; [grad] is bound in every pass before use. *)
Record vars : Type := {
  j : option Q;
  j_prev : option Q;
  m : loc;
  m_prev : loc;
  it : Z
}.

(** How one pass of [while True] ends: at [break], or at the end of the
    body.  [Break] carries the variables the code after the loop reads. *)
Inductive pass : Type :=
| Break (v : vars) (jv : Q) (grad : loc)
| Continue (v : vars).

Definition not_descent : string :=
  "Negative gradient is not a descent direction. Is your gradient correct?".

(** Lines 64-120, one pass. *)
Definition loop_body (self : SteepestDescent) (o : Objective V) (v : vars)
  : M pass :=
  (* Evaluate the functional at the current iterate *)
  jv <- match j v with
        | None => call o (m v)
        | Some jv => ret jv
        end ;;
  grad <- call_gradient o (m v) ;;
  when (has_key (hooks self) "before_iteration")
       (call_hook self "before_iteration" jv grad) ;;
  when (disp self)
       (n <- norm grad ;; emit (EvIteration (it v) jv n)) ;;
  (* Check for convergence; [norm] only reads, so it is taken once here *)
  n <- norm grad ;;
  if negb (keep_going self n jv (j_prev v) (it v)) then
    ret (Break v jv grad)
  else
  (* Compute slope at current point *)
  gg <- inner grad grad ;;
  let djs := (- gg)%Q in
  if Qle_bool 0 djs then raise (RuntimeError not_descent) else
  alpha <- search (ls self) (phi o (m_prev v) grad) (phi_dphi o (m_prev v) grad) ;;
  (* update m and j_new *)
  m' <- clone (m_prev v) ;;
  axpy m' (- alpha) grad ;;
  j_new <- phi o (m_prev v) grad alpha ;;
  (* Update the current iterate *)
  m_prev' <- clone m' ;;
  let v' := {| j := Some j_new; j_prev := Some jv; m := m';
               m_prev := m_prev'; it := (it v + 1)%Z |} in
  match callback self with
  | Some f => d <- neg grad ;; emit (EvCallback f j_new d m')
  | None => ret tt
  end ;;
  when (has_key (hooks self) "after_iteration")
       (call_hook self "after_iteration" j_new grad) ;;
  ret (Continue v').

(** [while True], cut after [fuel] passes. *)
Fixpoint while_true (fuel : nat) (self : SteepestDescent) (o : Objective V)
    (v : vars) : M (vars * Q * loc) :=
  match fuel with
  | O => out_of_fuel
  | S fuel' =>
    p <- loop_body self o v ;;
    match p with
    | Break v' jv grad => ret (v', jv, grad)
    | Continue v' => while_true fuel' self o v'
    end
  end.

(** Lines 124-130: the line printed after the loop, if any.  [iter] on line
    125 is Python's built-in function, not the counter [it]. *)
Definition reason (self : SteepestDescent) (n : Q) (j : Q) (j_prev : option Q)
    (it : Z) : option message :=
  if not_None (maxiter self) && Py.le Py.PyIter (Py.of_int (maxiter self)) then
    Some MaxIterReached
  else if not_None (gtol self)
          && Py.le (Py.PyFloat n) (Py.of_float (gtol self)) then
    Some (GtolReached it)
  else match tol self, j_prev with
       | Some t, Some jp =>
         if Py.le (Py.PyFloat (Qabs (j - jp))) (Py.PyFloat t)
         then Some (TolReached it) else None
       | _, _ => None
       end.

(** Lines 54-134. *)
Definition solve (fuel : nat) (self : SteepestDescent) (problem : Problem V)
    (m0 : loc) : M Solution :=
  let o := obj problem in
  m_prev0 <- clone m0 ;;
  (* Start the optimisation loop *)
  r <- while_true fuel self o
         {| j := None; j_prev := None; m := m0; m_prev := m_prev0; it := 0%Z |} ;;
  let '(v, jv, grad) := r in
  (* Print the reason for convergence *)
  when (disp self)
       (n <- norm grad ;;
        match reason self n jv (j_prev v) (it v) with
        | Some msg => emit (EvPrint msg)
        | None => ret tt
        end) ;;
  ret {| Optimizer := m v; Number_of_iterations := it v |}.

End Solver.

Notation "x <- c ;; k" := (bind c (fun x => k))
  (at level 61, c at next level, right associativity).
Notation "c ;; k" := (bind c (fun _ => k))
  (at level 61, right associativity).

Arguments state V : clear implicits.
Arguments M V A : clear implicits.
Arguments pass : clear implicits.
Arguments vars : clear implicits.

(* ===================================================================== *)
(** ** Vocabulary of the statements                                      *)
(* ===================================================================== *)

Section Vocabulary.

Context {V : Type} {IV : Iterate V}.

(** [st'] keeps every object of [st] as it was: objects may only be added. *)
Definition frame (st st' : state V) : Prop :=
  next st <= next st' /\
  forall l, l < next st -> cells st' l = cells st l.

(** The same, and nothing was called or printed in between. *)
Definition quiet (st st' : state V) : Prop :=
  frame st st' /\ trace st' = trace st.

(** How often the line search was entered. *)
Definition is_search (e : event V) : bool :=
  match e with EvSearch => true | _ => false end.

Definition searches (tr : list (event V)) : nat :=
  List.length (filter is_search tr).

(** How often the hook registered under [key] was called. *)
Definition is_hook (key : string) (e : event V) : bool :=
  match e with EvHook k _ _ _ _ => String.eqb k key | _ => false end.

Definition hook_calls (key : string) (tr : list (event V)) : nat :=
  List.length (filter (is_hook key) tr).

(** The gradient evaluations and hook calls of a trace, in order. *)
Definition is_observed (e : event V) : bool :=
  match e with
  | EvGradient _ _ | EvHook _ _ _ _ _ => true
  | _ => false
  end.

Definition observed (tr : list (event V)) : list (event V) :=
  filter is_observed tr.

Definition is_max_iter (e : event V) : bool :=
  match e with EvPrint MaxIterReached => true | _ => false end.

(** The value of [j] after lines 65-66 of a pass started in [st]. *)
Definition current_j (o : Objective V) (v : vars) (st : state V) : Q :=
  match j v with
  | Some q => q
  | None => value o (cells st (m v))
  end.

(** The events of lines 67-74 of a pass started in [st]: the gradient
    evaluation, the [before_iteration] hook and the progress line. *)
Definition head_events (self : SteepestDescent) (o : Objective V) (v : vars)
    (st : state V) : list (event V) :=
  let x := cells st (m v) in
  let jv := current_j o v st in
  let g := next st in
  let gv := gradient o x in
  EvGradient x g
  :: (if has_key (hooks self) "before_iteration"
      then [EvHook "before_iteration" (getitem (hooks self) "before_iteration")
                   jv g gv]
      else [])
  ++ (if disp self then [EvIteration (it v) jv (v_norm gv)] else []).

(** The line printed after the loop (lines 123-130), left by a loop that
    ended in [st]. *)
Definition final_events (self : SteepestDescent) (v : vars) (jv : Q)
    (grad : loc) (st : state V) : list (event V) :=
  if disp self then
    match reason self (v_norm (cells st grad)) jv (j_prev v) (it v) with
    | Some msg => [EvPrint msg]
    | None => []
    end
  else [].

(** The state in which [solve] enters the loop: the initial iterate has been
    cloned into [m_prev] (line 58). *)
Definition entry_state (m0 : loc) (st : state V) : state V :=
  {| cells := fun l' => if Nat.eqb l' (next st) then cells st m0 else cells st l';
     next := S (next st);
     trace := trace st |}.

Definition entry_vars (m0 : loc) (st : state V) : vars :=
  {| j := None; j_prev := None; m := m0; m_prev := next st; it := 0%Z |}.

(** The events of lines 116-120: the callback and the [after_iteration]
    hook. *)
Definition tail_events (self : SteepestDescent) (j_new : Q) (g : loc) (gv : V)
    (d m' : loc) : list (event V) :=
  match callback self with
  | Some f => [EvCallback f j_new d m']
  | None => []
  end
  ++ (if has_key (hooks self) "after_iteration"
      then [EvHook "after_iteration" (getitem (hooks self) "after_iteration")
                   j_new g gv]
      else []).

(** How often the callback was called, and how many lines were printed. *)
Definition is_callback (e : event V) : bool :=
  match e with EvCallback _ _ _ _ => true | _ => false end.

Definition callbacks (tr : list (event V)) : nat :=
  List.length (filter is_callback tr).

Definition is_printed (e : event V) : bool :=
  match e with EvIteration _ _ _ | EvPrint _ => true | _ => false end.

Definition printed (tr : list (event V)) : list (event V) :=
  filter is_printed tr.

(** What the switches of the solver allow in a list of events: no printed
    line when [disp] is off, no callback call when none is set, no call of a
    hook under a key that is not registered. *)
Definition switched_off (self : SteepestDescent) (tr : list (event V)) : Prop :=
  (disp self = false -> printed tr = []) /\
  (callback self = None -> callbacks tr = 0) /\
  (forall key, has_key (hooks self) key = false -> hook_calls key tr = 0).

(** The calls a list of events holds: [b] of [before_iteration], [s] of the
    line search, [c] of the callback, [a] of [after_iteration]; a hook or
    callback that is not registered is not counted. *)
Definition tally (self : SteepestDescent) (tr : list (event V))
    (b s c a : nat) : Prop :=
  (has_key (hooks self) "before_iteration" = true ->
   hook_calls "before_iteration" tr = b) /\
  searches tr = s /\
  (forall f, callback self = Some f -> callbacks tr = c) /\
  (has_key (hooks self) "after_iteration" = true ->
   hook_calls "after_iteration" tr = a).

(** What a completed pass shows of gradient evaluations and hook calls: the
    gradient of the pass's iterate [x] is evaluated into the object [g], and
    both hooks receive [g], holding that gradient. *)
Definition completed_pass (self : SteepestDescent) (o : Objective V)
    (p : V * loc * Q * Q) : list (event V) :=
  let '(x, g, jb, ja) := p in
  [EvGradient x g;
   EvHook "before_iteration" (getitem (hooks self) "before_iteration")
          jb g (gradient o x);
   EvHook "after_iteration" (getitem (hooks self) "after_iteration")
          ja g (gradient o x)].

(** The same for the pass that ends at [break]. *)
Definition open_pass (self : SteepestDescent) (o : Objective V)
    (p : V * loc * Q) : list (event V) :=
  let '(x, g, jb) := p in
  [EvGradient x g;
   EvHook "before_iteration" (getitem (hooks self) "before_iteration")
          jb g (gradient o x)].

End Vocabulary.

(* ===================================================================== *)
(** ** A concrete instance: one-dimensional iterates                     *)
(* ===================================================================== *)

Module Quadratic.

(** Iterates are rationals: [axpy] is [self + a*x], the inner product is the
    product and the norm the absolute value. *)
#[export] Instance line : Iterate Q := {|
  v_axpy := fun a x self => Qred (self + a * x);
  v_inner := fun x y => Qred (x * y);
  v_norm := fun x => Qabs x;
  v_neg := fun x => Qopp x
|}.

(** [f(x) = x^2] with its gradient [2x]. *)
Definition square : Objective Q := {|
  value := fun x => Qred (x * x);
  gradient := fun x => Qred (2 * x);
  derivative := fun x d => Qred (2 * x * d)
|}.

(** The same objective with the sign of the gradient evaluator inverted. *)
Definition inverted : Objective Q := {|
  value := fun x => Qred (x * x);
  gradient := fun x => Qred (- (2 * x));
  derivative := fun x d => Qred (2 * x * d)
|}.

(** A constant objective: its gradient vanishes everywhere. *)
Definition flat : Objective Q := {|
  value := fun _ => 1%Q;
  gradient := fun _ => 0%Q;
  derivative := fun _ _ => 0%Q
|}.

(** A line search that evaluates [phi_dphi] at 0 and [phi] at [a], and
    accepts [a]. *)
Definition fixed_step (a : Q) : LineSearch :=
  AskPhiDphi 0 (fun _ => AskPhi a (fun _ => Accept a)).

(** The resolver of line-search names: it knows "fixed". *)
Definition get_line_search_method (name : string) (_ : LsOptions)
  : result LineSearch :=
  if String.eqb name "fixed" then Ok (fixed_step (1 # 4))
  else Raise (RuntimeError "unknown line search").

(** A store with one object, location 0, of content [x]. *)
Definition start (x : Q) : state Q :=
  {| cells := fun _ => x; next := 1; trace := [] |}.

Definition solver (tol gtol : option Q) (maxiter : option Z) (hooks : Hooks)
  : SteepestDescent :=
  {| tol := tol; gtol := gtol; maxiter := maxiter; disp := true;
     line_search := "fixed"; line_search_options := [];
     ls := fixed_step (1 # 4); callback := None; hooks := hooks |}.

Definition both_hooks : Hooks :=
  [("before_iteration", "fb"); ("after_iteration", "fa")]%string.

Definition problem : Problem Q := {| obj := square |}.

(** [options = {"gtol": None, "maxiter": None, "line_search": "fixed"}]. *)
Definition unset_options : Options :=
  {| o_gtol := Some None; o_maxiter := Some None; o_disp := None;
     o_line_search := Some "fixed"%string; o_line_search_options := None;
     o_callback := None |}.

(** [options = {"line_search": "fixed"}]: every other setting by default. *)
Definition default_options : Options :=
  {| o_gtol := None; o_maxiter := None; o_disp := None;
     o_line_search := Some "fixed"%string; o_line_search_options := None;
     o_callback := None |}.

(** A solver with [disp] off, a callback and no hooks. *)
Definition silent_solver : SteepestDescent :=
  {| tol := None; gtol := Some 1%Q; maxiter := Some 200%Z; disp := false;
     line_search := "fixed"; line_search_options := [];
     ls := fixed_step (1 # 4); callback := Some "cb"%string; hooks := [] |}.

(** A store with an iterate of content 4 at location 0 and a direction of
    content 8 at location 1. *)
Definition two_objects : state Q :=
  {| cells := fun l => if Nat.eqb l 0 then 4%Q else 8%Q; next := 2;
     trace := [] |}.

End Quadratic.

(* ===================================================================== *)
(** ** The store is only extended                                        *)
(* ===================================================================== *)

Section Facts.

Context {V : Type} {IV : Iterate V}.

Lemma frame_refl (st : state V) : frame st st.
Proof. split; auto. Qed.

Lemma frame_trans (st1 st2 st3 : state V) :
  frame st1 st2 -> frame st2 st3 -> frame st1 st3.
Proof.
  intros [Hn1 Hc1] [Hn2 Hc2]. split; [lia|].
  intros l Hl. rewrite Hc2 by lia. now apply Hc1.
Qed.

Lemma quiet_refl (st : state V) : quiet st st.
Proof. split; [apply frame_refl | reflexivity]. Qed.

Lemma quiet_trans (st1 st2 st3 : state V) :
  quiet st1 st2 -> quiet st2 st3 -> quiet st1 st3.
Proof.
  intros [Hf1 Ht1] [Hf2 Ht2]. split.
  - eapply frame_trans; eassumption.
  - congruence.
Qed.

(** A write to an object allocated after [st] keeps the frame of [st]. *)
Lemma frame_fresh_cell (st : state V) (c : loc -> V) (n l : loc) (x : V)
    (tr : list (event V)) :
  next st <= l -> next st <= n ->
  (forall l', l' < next st -> c l' = cells st l') ->
  frame st {| cells := fun l' => if Nat.eqb l' l then x else c l';
              next := n; trace := tr |}.
Proof.
  intros Hl Hn Hc. split; simpl; [exact Hn|].
  intros l' Hl'. destruct (Nat.eqb_spec l' l); [lia | now apply Hc].
Qed.

(** [phi] clones, updates the clone and evaluates the objective there. *)
Lemma phi_run (o : Objective V) (m_prev grad : loc) (alpha : Q) (st : state V) :
  exists p st', phi o m_prev grad alpha st = (Ok p, st') /\ quiet st st'.
Proof.
  eexists. eexists. split; [reflexivity|]. split; [|reflexivity].
  apply frame_fresh_cell; simpl; try lia.
  intros l' Hl'. destruct (Nat.eqb_spec l' (next st)); [lia | reflexivity].
Qed.

Lemma phi_dphi_run (o : Objective V) (m_prev grad : loc) (alpha : Q)
    (st : state V) :
  exists r st', phi_dphi o m_prev grad alpha st = (Ok r, st') /\ quiet st st'.
Proof.
  eexists. eexists. split; [reflexivity|]. split; [|reflexivity].
  apply frame_fresh_cell; simpl; try lia.
  intros l' Hl'.
  repeat (match goal with
          | |- context [Nat.eqb ?a ?b] => destruct (Nat.eqb_spec a b); try lia
          end); reflexivity.
Qed.

(** A line search run against functions that only add objects ends with an
    accepted step or with the line search's own error, having only added
    objects. *)
Lemma run_search_quiet (f : Q -> M V Q) (g : Q -> M V (Q * Q)) :
  (forall a st, exists p st', f a st = (Ok p, st') /\ quiet st st') ->
  (forall a st, exists r st', g a st = (Ok r, st') /\ quiet st st') ->
  forall (t : LineSearch) (st : state V),
  exists st', quiet st st' /\
    (run_search t f g st = (Raise LineSearchError, st') \/
     exists alpha, run_search t f g st = (Ok alpha, st')).
Proof.
  intros Hf Hg t.
  induction t as [alpha | | a k IH | a k IH]; intros st; simpl.
  - exists st. split; [apply quiet_refl|]. right. now exists alpha.
  - exists st. split; [apply quiet_refl|]. now left.
  - destruct (Hf a st) as (p & st1 & E & Hq).
    destruct (IH p st1) as (st2 & Hq2 & Hr).
    exists st2. split; [eapply quiet_trans; eassumption|].
    unfold bind. rewrite E. exact Hr.
  - destruct (Hg a st) as (r & st1 & E & Hq).
    destruct (IH r st1) as (st2 & Hq2 & Hr).
    exists st2. split; [eapply quiet_trans; eassumption|].
    unfold bind. rewrite E. exact Hr.
Qed.


(** The slope test of line 85, as an inequality on the inner product. *)
Lemma slope_test (gg : Q) :
  (Qle_bool 0 (- gg) = true -> (gg <= 0)%Q) /\
  (Qle_bool 0 (- gg) = false -> (0 < gg)%Q).
Proof.
  split; intros H.
  - apply Qle_bool_iff in H. lra.
  - destruct (Qlt_le_dec 0 gg) as [Hlt | Hle]; [exact Hlt|].
    assert (Hb : Qle_bool 0 (- gg) = true) by (apply Qle_bool_iff; lra).
    congruence.
Qed.

(** One pass of the loop, case by case: what it returns, what it leaves in
    the store and what it adds to the trace. *)
Lemma loop_body_spec (self : SteepestDescent) (o : Objective V) (v : vars)
    (st : state V) :
  let x := cells st (m v) in
  let jv := current_j o v st in
  let g := next st in
  let gv := gradient o x in
  let go := keep_going self (v_norm gv) jv (j_prev v) (it v) in
  let pre := trace st ++ head_events self o v st in
  exists r st', loop_body self o v st = (r, st') /\ frame st st' /\
    match r with
    | Ok (Break v' jv' g') =>
        go = false /\ v' = v /\ jv' = jv /\ g' = g /\ trace st' = pre
    | Ok (Continue v') =>
        go = true /\ (0 < v_inner gv gv)%Q /\
        it v' = (it v + 1)%Z /\ j_prev v' = Some jv /\
        exists j_new d, j v' = Some j_new /\
          trace st' = pre ++ EvSearch :: tail_events self j_new g gv d (m v')
    | Raise (RuntimeError msg) =>
        go = true /\ (v_inner gv gv <= 0)%Q /\ msg = not_descent /\
        trace st' = pre
    | Raise LineSearchError =>
        go = true /\ (0 < v_inner gv gv)%Q /\ trace st' = pre ++ [EvSearch]
    | OutOfFuel => False
    end.
Proof.
  intros x jv g gv go pre.
  set (st1 := {| cells := fun l' => if Nat.eqb l' g then gv else cells st l';
                 next := S g; trace := pre |}).
  assert (Hf1 : frame st st1).
  { apply frame_fresh_cell; subst g; auto. }
  (* lines 65-86 *)
  assert (Hhead : exists rest,
    loop_body self o v st =
    (if negb go then (Ok (Break v jv g), st1)
     else if Qle_bool 0 (- v_inner gv gv)
          then (Raise (RuntimeError not_descent), st1)
          else rest st1) /\
    rest = (fun st1 =>
     (alpha <- search (ls self) (phi o (m_prev v) g) (phi_dphi o (m_prev v) g) ;;
     m' <- clone (m_prev v) ;;
     axpy m' (- alpha) g ;;
     j_new <- phi o (m_prev v) g alpha ;;
     m_prev' <- clone m' ;;
     match callback self with
     | Some f => d <- neg g ;; emit (EvCallback f j_new d m')
     | None => ret tt
     end ;;
     when (has_key (hooks self) "after_iteration")
          (call_hook self "after_iteration" j_new g) ;;
     ret (Continue {| j := Some j_new; j_prev := Some jv; m := m';
                      m_prev := m_prev'; it := (it v + 1)%Z |})) st1)).
  { eexists. split; [|reflexivity].
    subst st1 pre go gv g jv x. unfold loop_body, head_events, current_j.
    destruct (j v) as [q|], (has_key (hooks self) "before_iteration"), (disp self);
    cbv [bind call call_gradient call_hook when norm inner emit alloc read ret raise];
    cbn [cells next trace app]; rewrite ?Nat.eqb_refl, <- ?app_assoc; cbn [app];
    (destruct (keep_going self _ _ _ _); cbn [negb]; [|reflexivity]);
    cbn [cells]; rewrite ?Nat.eqb_refl;
    (destruct (Qle_bool 0 _); reflexivity). }
  destruct Hhead as (rest & -> & ->).
  destruct go eqn:Hgo; cbn [negb].
  2:{ exists (Ok (Break v jv g)), st1. repeat split; auto; apply Hf1. }
  destruct (slope_test (v_inner gv gv)) as [Hle Hlt].
  destruct (Qle_bool 0 (- v_inner gv gv)) eqn:Hs.
  { exists (Raise (RuntimeError not_descent)), st1.
    repeat split; auto; apply Hf1. }
  specialize (Hlt eq_refl). clear Hle.
  (* line 103 *)
  set (st1s := {| cells := cells st1; next := next st1;
                  trace := trace st1 ++ [EvSearch] |}).
  assert (Hf1s : frame st st1s) by (split; apply Hf1).
  destruct (run_search_quiet _ _ (phi_run o (m_prev v) g)
              (phi_dphi_run o (m_prev v) g) (ls self) st1s)
    as (st2 & [Hf2 Ht2] & Hr).
  assert (Hfr : frame st st2) by (eapply frame_trans; eassumption).
  unfold bind at 1, search, bind at 1, emit at 1. fold st1s.
  destruct Hr as [E | [alpha E]]; rewrite E.
  { exists (Raise LineSearchError), st2. repeat split; auto; apply Hfr. }
  (* lines 106-120 *)
  assert (Hg : g < next st2) by (destruct Hf2 as [Hn _]; simpl in Hn; lia).
  assert (Hgv : cells st2 g = gv).
  { destruct Hf2 as [_ Hc]. rewrite Hc by (simpl; lia).
    simpl. now rewrite Nat.eqb_refl. }
  destruct (callback self) as [f|] eqn:Hcb,
           (has_key (hooks self) "after_iteration") eqn:Hha;
    cbv [bind clone axpy phi call neg emit when call_hook read write alloc ret];
    cbn [cells next trace];
    (eexists; eexists; split; [reflexivity|]);
    (split; [eapply frame_trans; [exact Hfr|]; split; cbn [cells next]; [lia|];
             intros l Hl;
             repeat match goal with
                    | |- context [Nat.eqb ?a ?b] =>
                      destruct (Nat.eqb_spec a b); try lia
                    end; reflexivity
            |]);
    cbn [it j_prev j m]; (repeat split; auto);
    (eexists; exists (S (S (S (next st2)))); split; [reflexivity|]);
    cbn [trace]; rewrite Ht2; unfold tail_events; rewrite Hcb, Hha;
    cbn [st1s st1 trace app]; rewrite <- ?app_assoc; cbn [app];
    try reflexivity;
    repeat f_equal;
    repeat match goal with
           | |- context [Nat.eqb ?a ?b] =>
             destruct (Nat.eqb_spec a b); try lia
           end; exact Hgv.
Qed.

(** An invariant of the passes holds when the loop ends, however it ends. *)
Lemma while_true_inv (self : SteepestDescent) (o : Objective V)
    (Inv : vars -> state V -> Prop)
    (Post : result (vars * Q * loc) -> state V -> Prop) :
  (forall v st, Inv v st ->
     match loop_body self o v st with
     | (Ok (Continue v'), st') => Inv v' st'
     | (Ok (Break v' jv g), st') => Post (Ok (v', jv, g)) st'
     | (Raise e, st') => Post (Raise e) st'
     | (OutOfFuel, st') => Post OutOfFuel st'
     end) ->
  (forall v st, Inv v st -> Post OutOfFuel st) ->
  forall fuel v st, Inv v st ->
    Post (fst (while_true fuel self o v st)) (snd (while_true fuel self o v st)).
Proof.
  intros Hstep Hout fuel.
  induction fuel as [|fuel IH]; intros v st Hinv.
  - simpl. eapply Hout; eassumption.
  - simpl. unfold bind. specialize (Hstep v st Hinv).
    destruct (loop_body self o v st) as [[[v' jv g | v'] | e |] st'];
      simpl; auto.
Qed.

(** [solve] around its loop. *)
Lemma solve_spec (fuel : nat) (self : SteepestDescent) (problem : Problem V)
    (m0 : loc) (st : state V) :
  match while_true fuel self (obj problem) (entry_vars m0 st) (entry_state m0 st)
  with
  | (Ok (v, jv, grad), st') =>
      exists st'',
        solve fuel self problem m0 st =
          (Ok {| Optimizer := m v; Number_of_iterations := it v |}, st'') /\
        cells st'' = cells st' /\ next st'' = next st' /\
        trace st'' = trace st' ++ final_events self v jv grad st'
  | (Raise e, st') => solve fuel self problem m0 st = (Raise e, st')
  | (OutOfFuel, st') => solve fuel self problem m0 st = (OutOfFuel, st')
  end.
Proof.
  unfold final_events, entry_vars, entry_state.
  destruct (while_true fuel self (obj problem) _ _)
    as [[[[v jv] grad] | e |] st'] eqn:E;
    cbv [solve bind clone read alloc]; rewrite E; try reflexivity.
  cbv [when norm bind read ret].
  destruct (disp self).
  - destruct (reason self _ jv (j_prev v) (it v)); unfold emit;
      eexists; (split; [reflexivity|]); cbn [cells next trace]; auto.
    now rewrite app_nil_r.
  - exists st'. rewrite app_nil_r. auto.
Qed.

Lemma entry_frame (m0 : loc) (st : state V) : frame st (entry_state m0 st).
Proof. apply frame_fresh_cell; auto. Qed.

(** No run of [solve] changes an object that existed when it was called. *)
Lemma solve_frame (fuel : nat) (self : SteepestDescent) (problem : Problem V)
    (m0 : loc) (st : state V) :
  frame st (snd (solve fuel self problem m0 st)).
Proof.
  pose proof (solve_spec fuel self problem m0 st) as Hs.
  assert (Hl : frame st (snd (while_true fuel self (obj problem)
                                (entry_vars m0 st) (entry_state m0 st)))).
  { apply (while_true_inv self (obj problem)
             (fun _ s => frame st s) (fun _ s => frame st s)).
    - intros v s Hf.
      destruct (loop_body_spec self (obj problem) v s) as (r & s' & E & Hf' & _).
      rewrite E.
      assert (frame st s') by (eapply frame_trans; eassumption).
      destruct r as [[? ? ?|?]| |]; assumption.
    - auto.
    - apply entry_frame. }
  destruct (while_true fuel self (obj problem) (entry_vars m0 st)
              (entry_state m0 st)) as [[[[v jv] grad] | e |] st'];
    simpl in Hl.
  - destruct Hs as (st'' & -> & Hc & Hn & _). simpl.
    destruct Hl as [Hn' Hc']. split; [lia|]. intros l Hl. rewrite Hc. auto.
  - rewrite Hs. exact Hl.
  - rewrite Hs. exact Hl.
Qed.

(** *** Counting events *)

Lemma searches_app (a b : list (event V)) :
  searches (a ++ b) = searches a + searches b.
Proof. unfold searches. now rewrite filter_app, length_app. Qed.

Lemma searches_head (self : SteepestDescent) (o : Objective V) (v : vars)
    (st : state V) :
  searches (head_events self o v st) = 0.
Proof.
  unfold head_events.
  destruct (has_key (hooks self) "before_iteration"), (disp self); reflexivity.
Qed.

Lemma searches_final (self : SteepestDescent) (v : vars) (jv : Q) (grad : loc)
    (st : state V) :
  searches (final_events self v jv grad st) = 0.
Proof.
  unfold final_events.
  destruct (disp self); [|reflexivity].
  destruct (reason self _ jv (j_prev v) (it v)); reflexivity.
Qed.

Lemma entry_cells (m0 : loc) (st : state V) :
  cells (entry_state m0 st) m0 = cells st m0.
Proof. simpl. destruct (Nat.eqb m0 (next st)); reflexivity. Qed.

(** The first pass, started by [solve]: the quantities of its convergence
    test are those of the initial iterate. *)
Lemma first_pass (self : SteepestDescent) (problem : Problem V) (m0 : loc)
    (st : state V) :
  let x := cells st m0 in
  let gv := gradient (obj problem) x in
  let go := keep_going self (v_norm gv) (value (obj problem) x) None 0 in
  exists r st',
    loop_body self (obj problem) (entry_vars m0 st) (entry_state m0 st) = (r, st') /\
    frame st st' /\
    match r with
    | Ok (Break v' jv' g') =>
        go = false /\ v' = entry_vars m0 st /\
        searches (trace st') = searches (trace st)
    | Ok (Continue v') => go = true /\ (0 < v_inner gv gv)%Q
    | Raise (RuntimeError msg) =>
        go = true /\ (v_inner gv gv <= 0)%Q /\ msg = not_descent /\
        searches (trace st') = searches (trace st)
    | Raise LineSearchError => go = true /\ (0 < v_inner gv gv)%Q
    | OutOfFuel => False
    end.
Proof.
  intros x gv go.
  destruct (loop_body_spec self (obj problem) (entry_vars m0 st)
              (entry_state m0 st)) as (r & st' & E & Hf & Hr).
  exists r, st'. split; [exact E|]. split.
  { eapply frame_trans; [apply entry_frame | exact Hf]. }
  unfold current_j in Hr. cbn [j m j_prev it entry_vars] in Hr.
  rewrite entry_cells in Hr. fold x gv go in Hr.
  destruct r as [[v' jv' g' | v'] | [msg|] |]; auto.
  - destruct Hr as (Hgo & Hv & _ & _ & Ht). repeat split; auto.
    rewrite Ht, searches_app, searches_head. simpl. lia.
  - destruct Hr as (Hgo & Hlt & _). auto.
  - destruct Hr as (Hgo & Hle & Hm & Ht). repeat split; auto.
    rewrite Ht, searches_app, searches_head. simpl. lia.
  - destruct Hr as (Hgo & Hlt & _). auto.
Qed.

(** When the first convergence test fails, [solve] returns the initial
    iterate with a count of 0, and no line search was made. *)
Lemma solve_stops_at_once (fuel : nat) (self : SteepestDescent)
    (problem : Problem V) (m0 : loc) (st : state V) :
  keep_going self (v_norm (gradient (obj problem) (cells st m0)))
             (value (obj problem) (cells st m0)) None 0 = false ->
  exists st',
    solve (S fuel) self problem m0 st =
      (Ok {| Optimizer := m0; Number_of_iterations := 0 |}, st') /\
    frame st st' /\
    searches (trace st') = searches (trace st).
Proof.
  intros Hgo.
  pose proof (solve_spec (S fuel) self problem m0 st) as Hs.
  destruct (first_pass self problem m0 st) as (r & st1 & E & Hf & Hr).
  simpl in Hs. unfold bind at 1 in Hs. rewrite E in Hs.
  destruct r as [[v' jv' g' | v'] | [msg|] |];
    try (destruct Hr as [Hgo' _]; congruence); try contradiction.
  destruct Hr as (_ & -> & Hsr).
  unfold ret in Hs. destruct Hs as (st'' & Es & Hc & Hn & Ht).
  exists st''. split; [exact Es|]. split.
  - destruct Hf as [Hn1 Hc1]. split; [lia|].
    intros l Hl. rewrite Hc. auto.
  - rewrite Ht, searches_app, searches_final. lia.
Qed.

(* ===================================================================== *)
(** ** The convergence test                                              *)
(* ===================================================================== *)

(** On the first test [j_prev] is unset and the operand of [> self.tol] is
    [True]: the clause reads [1 > tol]. *)
Lemma first_test_compares_True (self : SteepestDescent) (t jv : Q) :
  tol self = Some t ->
  Py.gt (functional_change_operand self jv None) (Py.of_float (tol self))
  = match (1 ?= t)%Q with Gt => true | _ => false end.
Proof.
  intros Ht. unfold functional_change_operand. rewrite Ht. reflexivity.
Qed.

(** From the second test on the clause is [abs(j - j_prev) > tol]. *)
Lemma later_test_compares_change (self : SteepestDescent) (t jv jp : Q) :
  tol self = Some t ->
  Py.gt (functional_change_operand self jv (Some jp)) (Py.of_float (tol self))
  = true <-> (t < Qabs (jv - jp))%Q.
Proof.
  intros Ht. unfold functional_change_operand. rewrite Ht.
  change (match (Qabs (jv - jp) ?= t)%Q with Gt => true | _ => false end = true
          <-> (t < Qabs (jv - jp))%Q).
  split; intros H.
  - apply (proj2 (Qgt_alt (Qabs (jv - jp)) t)).
    destruct (Qabs (jv - jp) ?= t)%Q; congruence.
  - now rewrite (proj1 (Qgt_alt (Qabs (jv - jp)) t) H).
Qed.

Lemma keep_going_tol_ge_1 (self : SteepestDescent) (t n jv : Q) (k : Z) :
  tol self = Some t -> (1 <= t)%Q -> keep_going self n jv None k = false.
Proof.
  intros Ht Hle. unfold keep_going.
  rewrite (first_test_compares_True self t jv Ht).
  assert (Hne : (1 ?= t)%Q <> Gt) by (apply Qle_alt; exact Hle).
  destruct (1 ?= t)%Q; try congruence; cbv iota;
    now rewrite andb_false_r.
Qed.

Lemma keep_going_unset (self : SteepestDescent) (n jv : Q) (jp : option Q)
    (k : Z) :
  tol self = None -> gtol self = None -> maxiter self = None ->
  keep_going self n jv jp k = true.
Proof.
  intros Ht Hg Hm. unfold keep_going, functional_change_operand.
  rewrite Ht, Hg, Hm. reflexivity.
Qed.

Lemma keep_going_gtol (self : SteepestDescent) (g n jv : Q) (jp : option Q)
    (k : Z) :
  gtol self = Some g -> keep_going self n jv jp k = true -> (g < n)%Q.
Proof.
  intros Hg H. unfold keep_going in H. rewrite Hg in H.
  apply andb_prop in H as [H _]. apply andb_prop in H as [H _].
  change (match (n ?= g)%Q with Gt => true | _ => false end = true) in H.
  apply (proj2 (Qgt_alt n g)). destruct (n ?= g)%Q; congruence.
Qed.

(* ===================================================================== *)
(** ** Properties of [solve]                                             *)
(* ===================================================================== *)

(** C9: with [tol] set to a value of at least 1, whatever the other
    settings, the first convergence test compares [True] with [tol], fails,
    and [solve] returns the initial iterate with "Number of iterations" 0
    before any line search. *)
Theorem C9_tol_ge_1_returns_at_first_test (self : SteepestDescent) (t : Q)
    (fuel : nat) (problem : Problem V) (m0 : loc) (st : state V) :
  tol self = Some t -> (1 <= t)%Q ->
  (forall n jv, functional_change_operand self jv None = Py.PyBool true /\
                keep_going self n jv None 0 = false) /\
  exists st',
    solve (S fuel) self problem m0 st =
      (Ok {| Optimizer := m0; Number_of_iterations := 0 |}, st') /\
    searches (trace st') = searches (trace st).
Proof.
  intros Ht Hle. split.
  - intros n jv. split.
    + unfold functional_change_operand. now rewrite Ht.
    + eapply keep_going_tol_ge_1; eassumption.
  - destruct (solve_stops_at_once fuel self problem m0 st) as (st' & E & _ & Hs).
    + eapply keep_going_tol_ge_1; eassumption.
    + exists st'. auto.
Qed.

(** C6: with [maxiter = 0] and [tol], [gtol] unset, [solve] returns at once:
    the count is 0, the returned iterate is the input object with the content
    it had, no object of the caller was changed and no line search was
    made. *)
Theorem C6_maxiter_zero_returns_input (self : SteepestDescent) (fuel : nat)
    (problem : Problem V) (m0 : loc) (st : state V) :
  tol self = None -> gtol self = None -> maxiter self = Some 0%Z ->
  m0 < next st ->
  exists st',
    solve (S fuel) self problem m0 st
    = (Ok {| Optimizer := m0; Number_of_iterations := 0 |}, st') /\
    cells st' m0 = cells st m0 /\
    frame st st' /\
    searches (trace st') = searches (trace st).
Proof.
  intros Ht Hg Hm Hm0.
  destruct (solve_stops_at_once fuel self problem m0 st) as (st' & E & Hf & Hs).
  - unfold keep_going. rewrite Hm. now rewrite andb_false_r.
  - exists st'. split; [exact E|].
    repeat split; try apply Hf; auto.
Qed.

(** C8: [solve] never changes the caller's initial iterate: every [axpy]
    goes to an object cloned inside [solve], so whether [solve] returns,
    raises or is cut, the initial iterate holds the content it had on
    entry. *)
Theorem C8_initial_iterate_unchanged (fuel : nat) (self : SteepestDescent)
    (problem : Problem V) (m0 : loc) (st : state V) :
  m0 < next st ->
  cells (snd (solve fuel self problem m0 st)) m0 = cells st m0.
Proof.
  intros Hm0. now apply (solve_frame fuel self problem m0 st).
Qed.

(** C10: with [gtol] set to a non-negative value and an inner product that
    is positive wherever the norm is, the descent-direction [RuntimeError]
    is never raised: the check on line 85 is reached only with
    [norm(grad) > gtol >= 0], which makes [djs] negative. *)
Theorem C10_descent_error_unreachable (self : SteepestDescent) (g : Q)
    (fuel : nat) (problem : Problem V) (m0 : loc) (st : state V)
    (msg : string) :
  gtol self = Some g -> (0 <= g)%Q ->
  (forall x : V, (0 < v_norm x)%Q -> (0 < v_inner x x)%Q) ->
  fst (solve fuel self problem m0 st) <> Raise (RuntimeError msg).
Proof.
  intros Hg Hpos Hinner.
  pose proof (solve_spec fuel self problem m0 st) as Hs.
  assert (Hl : forall msg', fst (while_true fuel self (obj problem)
             (entry_vars m0 st) (entry_state m0 st))
           <> Raise (RuntimeError msg')).
  { apply (while_true_inv self (obj problem) (fun _ _ => True)
             (fun r _ => forall msg', r <> Raise (RuntimeError msg')));
      [| discriminate | exact I].
    intros v s _.
    destruct (loop_body_spec self (obj problem) v s) as (r & s' & E & _ & Hr).
    rewrite E.
    destruct r as [[v' jv' g' | v'] | [msg'|] |]; try discriminate; auto.
    destruct Hr as (Hgo & Hle & _).
    apply (keep_going_gtol self g) in Hgo; [|exact Hg].
    assert (Hn : (0 < v_norm (gradient (obj problem) (cells s (m v))))%Q)
      by lra.
    apply Hinner in Hn. lra. }
  specialize (Hl msg).
  destruct (while_true fuel self (obj problem) (entry_vars m0 st)
              (entry_state m0 st)) as [[[[v jv] grad] | e |] st'].
  - destruct Hs as (st'' & -> & _). discriminate.
  - rewrite Hs. simpl in *. intros H. apply Hl. congruence.
  - rewrite Hs. discriminate.
Qed.

(** C3, as the code has it: with [tol], [gtol] and [maxiter] all unset the
    construction succeeds (no configuration error exists), every convergence
    test lets the loop continue, and [solve] never returns a Solution: it
    ends only by the descent-direction error or a line-search failure. *)
Theorem C3_unset_criteria_never_stop
    (get_line_search_method : string -> LsOptions -> result LineSearch)
    (t : LineSearch) (options : Options) (hks : Hooks) :
  o_gtol options = Some None -> o_maxiter options = Some None ->
  get_line_search_method (get (o_line_search options) "strong_wolfe"%string)
                         (get (o_line_search_options options) []) = Ok t ->
  exists self,
    __init__ get_line_search_method None options hks = Ok self /\
    (forall n jv jp k, keep_going self n jv jp k = true) /\
    (forall fuel (problem : Problem V) m0 (st : state V) sol,
       fst (solve fuel self problem m0 st) <> Ok sol).
Proof.
  intros Hg Hm Hls. unfold __init__. rewrite Hls, Hg, Hm.
  eexists. split; [reflexivity|].
  assert (Hgo : forall self, tol self = None -> gtol self = None ->
                maxiter self = None ->
                forall n jv jp k, keep_going self n jv jp k = true).
  { intros; now apply keep_going_unset. }
  split; [now apply Hgo|].
  intros fuel problem m0 st sol.
  match goal with |- context [solve fuel ?s] => set (self := s) end.
  specialize (Hgo self eq_refl eq_refl eq_refl).
  pose proof (solve_spec fuel self problem m0 st) as Hs.
  assert (Hl : forall x, fst (while_true fuel self (obj problem)
             (entry_vars m0 st) (entry_state m0 st)) <> Ok x).
  { apply (while_true_inv self (obj problem) (fun _ _ => True)
             (fun r _ => forall x, r <> Ok x));
      [| discriminate | exact I].
    intros v s _.
    destruct (loop_body_spec self (obj problem) v s) as (r & s' & E & _ & Hr).
    rewrite E.
    destruct r as [[v' jv' g' | v'] | [msg'|] |]; try discriminate; auto.
    destruct Hr as (Hstop & _). rewrite Hgo in Hstop. discriminate. }
  destruct (while_true fuel self (obj problem) (entry_vars m0 st)
              (entry_state m0 st)) as [[x | e |] st'].
  - exfalso. now apply (Hl x).
  - rewrite Hs. discriminate.
  - rewrite Hs. discriminate.
Qed.

(** C2, as the code has it: if the first convergence test lets the loop
    continue and the gradient [g] the evaluator returned has
    [inner(g, g) <= 0], then [solve] raises the descent-direction
    [RuntimeError] in the first pass and the line search is never called.
    The test reads [-inner(g, g)] only, which the sign of [g] does not
    change. *)
Theorem C2_nonpositive_inner_raises (fuel : nat) (self : SteepestDescent)
    (problem : Problem V) (m0 : loc) (st : state V) :
  let gv := gradient (obj problem) (cells st m0) in
  keep_going self (v_norm gv) (value (obj problem) (cells st m0)) None 0 = true ->
  (v_inner gv gv <= 0)%Q ->
  exists st',
    solve (S fuel) self problem m0 st = (Raise (RuntimeError not_descent), st') /\
    searches (trace st') = searches (trace st).
Proof.
  intros gv Hgo Hle.
  pose proof (solve_spec (S fuel) self problem m0 st) as Hs.
  destruct (first_pass self problem m0 st) as (r & st1 & E & Hf & Hr).
  simpl in Hs. unfold bind at 1 in Hs. rewrite E in Hs.
  fold gv in Hr.
  destruct r as [[v' jv' g' | v'] | [msg|] |]; try contradiction.
  - destruct Hr as [Hstop _]. congruence.
  - destruct Hr as [_ Hlt]. lra.
  - destruct Hr as (_ & _ & -> & Hsr). exists st1. auto.
  - destruct Hr as [_ Hlt]. lra.
Qed.

(** C5, as the code has it: [phi(alpha)] is the objective at the clone of
    [m_prev] after [axpy(-alpha, grad)]; [phi_dphi(alpha)] returns that value
    paired with the negated derivative of the objective at the trial point
    applied to [grad], which is the slope along the search direction
    [-grad]. *)
Theorem C5_phi_and_phi_dphi (o : Objective V) (m_prev grad : loc) (alpha : Q)
    (st : state V) :
  m_prev < next st -> grad < next st ->
  let trial := v_axpy (- alpha) (cells st grad) (cells st m_prev) in
  fst (phi o m_prev grad alpha st) = Ok (value o trial) /\
  fst (phi_dphi o m_prev grad alpha st)
  = Ok (value o trial, (- derivative o trial (cells st grad))%Q).
Proof.
  intros Hm Hg trial. subst trial.
  cbv [phi phi_dphi bind clone axpy call call_derivative read write alloc ret];
    cbn [fst cells next].
  repeat match goal with
         | |- context [Nat.eqb ?a ?b] => destruct (Nat.eqb_spec a b); try lia
         end.
  split; reflexivity.
Qed.

(** *** Hook calls *)

Lemma observed_app (a b : list (event V)) :
  observed (a ++ b) = observed a ++ observed b.
Proof. apply filter_app. Qed.

Lemma hook_calls_app (key : string) (a b : list (event V)) :
  hook_calls key (a ++ b) = hook_calls key a + hook_calls key b.
Proof. unfold hook_calls. now rewrite filter_app, length_app. Qed.

Lemma hook_calls_observed (key : string) (tr : list (event V)) :
  hook_calls key (observed tr) = hook_calls key tr.
Proof.
  unfold hook_calls, observed.
  induction tr as [|e tr IH]; [reflexivity|].
  destruct e; simpl; try exact IH.
  destruct (String.eqb key0 key); simpl; now rewrite IH.
Qed.

Lemma hook_calls_completed (self : SteepestDescent) (o : Objective V)
    (ps : list (V * loc * Q * Q)) :
  hook_calls "before_iteration" (flat_map (completed_pass self o) ps)
  = List.length ps /\
  hook_calls "after_iteration" (flat_map (completed_pass self o) ps)
  = List.length ps.
Proof.
  induction ps as [|[[[x g] jb] ja] ps [IHb IHa]]; [split; reflexivity|].
  cbn [flat_map]. rewrite !hook_calls_app, IHb, IHa. split; reflexivity.
Qed.

Lemma hook_calls_open (self : SteepestDescent) (o : Objective V)
    (last : V * loc * Q) :
  hook_calls "before_iteration" (open_pass self o last) = 1 /\
  hook_calls "after_iteration" (open_pass self o last) = 0.
Proof. destruct last as [[x g] jb]. split; reflexivity. Qed.

Lemma observed_head (self : SteepestDescent) (o : Objective V) (v : vars)
    (st : state V) :
  has_key (hooks self) "before_iteration" = true ->
  observed (head_events self o v st)
  = open_pass self o (cells st (m v), next st, current_j o v st).
Proof.
  intros Hb. unfold head_events. rewrite Hb.
  destruct (disp self); reflexivity.
Qed.

Lemma observed_tail (self : SteepestDescent) (j_new : Q) (g : loc) (gv : V)
    (d m' : loc) :
  has_key (hooks self) "after_iteration" = true ->
  observed (EvSearch :: tail_events self j_new g gv d m')
  = [EvHook "after_iteration" (getitem (hooks self) "after_iteration")
            j_new g gv].
Proof.
  intros Ha. unfold tail_events. rewrite Ha.
  destruct (callback self); reflexivity.
Qed.

Lemma observed_final (self : SteepestDescent) (v : vars) (jv : Q) (grad : loc)
    (st : state V) :
  observed (final_events self v jv grad st) = [].
Proof.
  unfold final_events. destruct (disp self); [|reflexivity].
  destruct (reason self _ jv (j_prev v) (it v)); reflexivity.
Qed.

(** C7, as the code has it: with both hooks registered, a run that returns
    after [n] completed iterations has called [after_iteration] exactly [n]
    times and [before_iteration] [n + 1] times: once at the head of every
    pass, the pass that ends at [break] included.  In each completed pass
    [before_iteration] comes first, and both hooks receive the gradient
    object evaluated at the head of that pass, holding the gradient of the
    iterate the pass started from. *)
Theorem C7_hooks_per_pass (self : SteepestDescent) (fuel : nat)
    (problem : Problem V) (m0 : loc) (st st' : state V) (sol : Solution) :
  has_key (hooks self) "before_iteration" = true ->
  has_key (hooks self) "after_iteration" = true ->
  solve fuel self problem m0 st = (Ok sol, st') ->
  exists passes last,
    Number_of_iterations sol = Z.of_nat (List.length passes) /\
    observed (trace st')
    = observed (trace st)
      ++ flat_map (completed_pass self (obj problem)) passes
      ++ open_pass self (obj problem) last /\
    hook_calls "after_iteration" (trace st')
    = hook_calls "after_iteration" (trace st) + List.length passes /\
    hook_calls "before_iteration" (trace st')
    = hook_calls "before_iteration" (trace st) + List.length passes + 1.
Proof.
  intros Hb Ha Hsolve.
  set (o := obj problem).
  pose proof (solve_spec fuel self problem m0 st) as Hs. fold o in Hs.
  assert (Hl :
    match fst (while_true fuel self o (entry_vars m0 st) (entry_state m0 st))
    with
    | Ok (v, _, _) =>
        exists passes last,
          it v = Z.of_nat (List.length passes) /\
          observed (trace (snd (while_true fuel self o (entry_vars m0 st)
                                  (entry_state m0 st))))
          = observed (trace st) ++ flat_map (completed_pass self o) passes
            ++ open_pass self o last
    | _ => True
    end).
  { apply (while_true_inv self o
             (fun v s => exists passes,
                it v = Z.of_nat (List.length passes) /\
                observed (trace s)
                = observed (trace st) ++ flat_map (completed_pass self o) passes)
             (fun r s => match r with
                         | Ok (v, _, _) =>
                           exists passes last,
                             it v = Z.of_nat (List.length passes) /\
                             observed (trace s)
                             = observed (trace st)
                               ++ flat_map (completed_pass self o) passes
                               ++ open_pass self o last
                         | _ => True
                         end)).
    - intros v s (passes & Hit & Hobs).
      destruct (loop_body_spec self o v s) as (r & s' & E & _ & Hr).
      rewrite E.
      destruct r as [[v' jv' g' | v'] | e |]; auto.
      + destruct Hr as (_ & -> & _ & _ & Ht).
        exists passes. eexists. split; [exact Hit|].
        rewrite Ht, observed_app, Hobs, observed_head by exact Hb.
        now rewrite <- app_assoc.
      + destruct Hr as (_ & _ & Hit' & _ & j_new & d & _ & Ht).
        exists (passes ++ [(cells s (m v), next s, current_j o v s, j_new)]).
        split.
        * rewrite Hit', Hit, length_app. simpl. lia.
        * rewrite Ht, !observed_app, Hobs, observed_head, observed_tail
            by assumption.
          rewrite flat_map_app, <- !app_assoc. reflexivity.
    - auto.
    - exists []. split; [reflexivity|]. simpl. now rewrite app_nil_r. }
  destruct (while_true fuel self o (entry_vars m0 st) (entry_state m0 st))
    as [[[[v jv] grad] | e |] s'];
    [| rewrite Hs in Hsolve; discriminate | rewrite Hs in Hsolve; discriminate].
  destruct Hs as (s'' & Es & _ & _ & Ht).
  rewrite Es in Hsolve. injection Hsolve as <- <-.
  destruct Hl as (passes & last & Hit & Hobs). cbn [snd] in Hobs.
  assert (Hobs' : observed (trace s'')
                  = observed (trace st) ++ flat_map (completed_pass self o) passes
                    ++ open_pass self o last).
  { now rewrite Ht, observed_app, observed_final, app_nil_r. }
  exists passes, last. split; [exact Hit|]. split; [exact Hobs'|].
  destruct (hook_calls_completed self o passes) as [Hcb Hca].
  destruct (hook_calls_open self o last) as [Hob Hoa].
  rewrite <- (hook_calls_observed "after_iteration" (trace s'')),
          <- (hook_calls_observed "before_iteration" (trace s'')), Hobs'.
  rewrite !hook_calls_app, !hook_calls_observed, Hcb, Hca, Hob, Hoa.
  split; lia.
Qed.

(** The report after the loop never names the iteration budget: [iter] is a
    function, and Python 2 orders a function above every number. *)
Lemma reason_never_max_iter (self : SteepestDescent) (n jv : Q)
    (jp : option Q) (k : Z) :
  reason self n jv jp k <> Some MaxIterReached.
Proof.
  unfold reason.
  destruct (maxiter self) as [mx|]; cbn [not_None is_None negb andb Py.of_int];
    [change (Py.le Py.PyIter (Py.PyInt mx)) with false; cbv iota |];
    (destruct (not_None (gtol self) && _); [discriminate|]);
    (destruct (tol self), jp; try discriminate);
    (destruct (Py.le _ _); discriminate).
Qed.

End Facts.

(* ===================================================================== *)
(** ** The properties on the one-dimensional instance                    *)
(* ===================================================================== *)

Import Quadratic.

(** On the rationals the inner product is positive wherever the norm is. *)
Lemma line_inner_positive (x : Q) :
  (0 < v_norm x)%Q -> (0 < v_inner x x)%Q.
Proof.
  change ((0 < Qabs x)%Q -> (0 < Qred (x * x))%Q).
  intros H. rewrite Qred_correct.
  destruct (Qlt_le_dec x 0) as [Hneg | Hpos].
  - nra.
  - rewrite Qabs_pos in H by exact Hpos. nra.
Qed.

(** C9 at [tol = 2] with the default [gtol] and [maxiter]. *)
Lemma C9_tol_two_witness :
  (1 <= 2)%Q /\
  exists st',
    solve 1 (solver (Some 2%Q) (Some (1 # 10000)%Q) (Some 200%Z) []) problem 0
          (start 4)
    = (Ok {| Optimizer := 0; Number_of_iterations := 0 |}, st') /\
    searches (trace st') = searches (trace (start 4)).
Proof.
  assert (H : (1 <= 2)%Q) by (unfold Qle; simpl; lia).
  split; [exact H|].
  exact (proj2 (C9_tol_ge_1_returns_at_first_test
                  (solver (Some 2%Q) (Some (1 # 10000)%Q) (Some 200%Z) [])
                  2%Q 0 problem 0 (start 4) eq_refl H)).
Defined.

(** C6 on the parabola, from the iterate 4. *)
Lemma C6_maxiter_zero_witness :
  0 < next (start 4) /\
  exists st',
    solve 1 (solver None None (Some 0%Z) []) problem 0 (start 4)
    = (Ok {| Optimizer := 0; Number_of_iterations := 0 |}, st') /\
    cells st' 0 = cells (start 4) 0 /\
    frame (start 4) st' /\
    searches (trace st') = searches (trace (start 4)).
Proof.
  assert (H : 0 < next (start 4)) by (simpl; lia).
  split; [exact H|].
  exact (C6_maxiter_zero_returns_input (solver None None (Some 0%Z) []) 0
           problem 0 (start 4) eq_refl eq_refl eq_refl H).
Defined.

(** C8 on a run of two iterations with both hooks. *)
Lemma C8_initial_iterate_witness :
  0 < next (start 4) /\
  cells (snd (solve 5 (solver (Some (1 # 2)%Q) None (Some 2%Z) both_hooks)
                    problem 0 (start 4))) 0
  = cells (start 4) 0.
Proof.
  assert (H : 0 < next (start 4)) by (simpl; lia).
  split; [exact H|].
  exact (C8_initial_iterate_unchanged 5
           (solver (Some (1 # 2)%Q) None (Some 2%Z) both_hooks)
           problem 0 (start 4) H).
Defined.

(** C10 at the default [gtol]. *)
Lemma C10_gtol_witness :
  (0 <= 1 # 10000)%Q /\
  fst (solve 5 (solver None (Some (1 # 10000)%Q) (Some 200%Z) []) problem 0
             (start 4))
  <> Raise (RuntimeError not_descent).
Proof.
  assert (H : (0 <= 1 # 10000)%Q) by (unfold Qle; simpl; lia).
  split; [exact H|].
  exact (C10_descent_error_unreachable
           (solver None (Some (1 # 10000)%Q) (Some 200%Z) []) (1 # 10000)%Q 5
           problem 0 (start 4) not_descent eq_refl H line_inner_positive).
Defined.

(** C3 fails: with the three criteria unset the construction succeeds and
    [solve] makes pass after pass (three line searches in three passes). *)
Lemma C3_unset_criteria_counterexample :
  exists self,
    __init__ get_line_search_method None unset_options [] = Ok self /\
    tol self = None /\ gtol self = None /\ maxiter self = None /\
    fst (solve 3 self problem 0 (start 4)) = OutOfFuel /\
    searches (trace (snd (solve 3 self problem 0 (start 4)))) = 3.
Proof.
  eexists. split; [reflexivity|].
  repeat split; vm_compute; reflexivity.
Qed.

(** C3, as the code has it, on the resolver of the instance. *)
Lemma C3_unset_criteria_witness :
  exists self,
    __init__ get_line_search_method None unset_options both_hooks = Ok self /\
    (forall n jv jp k, keep_going self n jv jp k = true) /\
    (forall fuel (p : Problem Q) m0 (st : state Q) sol,
       fst (solve fuel self p m0 st) <> Ok sol).
Proof.
  exact (C3_unset_criteria_never_stop (V := Q) get_line_search_method
           (fixed_step (1 # 4)) unset_options both_hooks
           eq_refl eq_refl eq_refl).
Defined.

(** C2 fails: with the gradient evaluator inverted, [solve] raises nothing;
    it calls the line search and returns after one iteration. *)
Lemma C2_inverted_gradient_counterexample :
  (gradient inverted 4 == - gradient square 4)%Q /\
  exists sol,
    fst (solve 3 (solver (Some (1 # 10000)%Q) (Some (1 # 10000)%Q) (Some 1%Z) [])
               {| obj := inverted |} 0 (start 4)) = Ok sol /\
    Number_of_iterations sol = 1%Z /\
    searches (trace (snd (solve 3 (solver (Some (1 # 10000)%Q)
                                          (Some (1 # 10000)%Q) (Some 1%Z) [])
                                {| obj := inverted |} 0 (start 4)))) = 1.
Proof.
  split; [reflexivity|].
  eexists. split; [vm_compute; reflexivity|].
  split; vm_compute; reflexivity.
Qed.

(** C2, as the code has it, on an objective with a vanishing gradient. *)
Lemma C2_zero_gradient_witness :
  keep_going (solver (Some (1 # 10000)%Q) None (Some 200%Z) [])
             (v_norm (gradient flat (cells (start 4) 0)))
             (value flat (cells (start 4) 0)) None 0 = true /\
  (v_inner (gradient flat (cells (start 4) 0%nat))
           (gradient flat (cells (start 4) 0%nat)) <= 0)%Q /\
  exists st',
    solve 1 (solver (Some (1 # 10000)%Q) None (Some 200%Z) [])
          {| obj := flat |} 0 (start 4)
    = (Raise (RuntimeError not_descent), st') /\
    searches (trace st') = searches (trace (start 4)).
Proof.
  assert (H1 : keep_going (solver (Some (1 # 10000)%Q) None (Some 200%Z) [])
             (v_norm (gradient flat (cells (start 4) 0)))
             (value flat (cells (start 4) 0)) None 0 = true) by reflexivity.
  assert (H2 : (v_inner (gradient flat (cells (start 4) 0%nat))
                        (gradient flat (cells (start 4) 0%nat)) <= 0)%Q)
    by (vm_compute; discriminate).
  split; [exact H1|]. split; [exact H2|].
  exact (C2_nonpositive_inner_raises 0
           (solver (Some (1 # 10000)%Q) None (Some 200%Z) [])
           {| obj := flat |} 0 (start 4) H1 H2).
Defined.

(** C5 fails: at the trial point 4 the derivative along [grad] is 64, and
    [phi_dphi] returns -64. *)
Lemma C5_sign_counterexample :
  fst (phi_dphi square 0 1 0 two_objects) = Ok (16, - 64)%Q /\
  v_axpy (- 0) (cells two_objects 1) (cells two_objects 0) = 4%Q /\
  derivative square 4%Q (cells two_objects 1) = 64%Q.
Proof. repeat split; vm_compute; reflexivity. Qed.

(** C5, as the code has it, at step length 1/4. *)
Lemma C5_phi_witness :
  0 < next two_objects /\ 1 < next two_objects /\
  fst (phi square 0 1 (1 # 4) two_objects)
  = Ok (value square (v_axpy (- (1 # 4)) (cells two_objects 1)
                             (cells two_objects 0))) /\
  fst (phi_dphi square 0 1 (1 # 4) two_objects)
  = Ok (value square (v_axpy (- (1 # 4)) (cells two_objects 1)
                             (cells two_objects 0)),
        Qopp (derivative square (v_axpy (- (1 # 4)) (cells two_objects 1)
                                        (cells two_objects 0))
                         (cells two_objects 1))).
Proof.
  assert (H0 : 0 < next two_objects) by (simpl; lia).
  assert (H1 : 1 < next two_objects) by (simpl; lia).
  split; [exact H0|]. split; [exact H1|].
  exact (C5_phi_and_phi_dphi square 0 1 (1 # 4) two_objects H0 H1).
Defined.

(** C7 fails: a run of 0 completed iterations has called
    [before_iteration] once. *)
Lemma C7_before_hook_counterexample :
  exists sol,
    fst (solve 1 (solver None None (Some 0%Z) both_hooks) problem 0 (start 4))
    = Ok sol /\
    Number_of_iterations sol = 0%Z /\
    hook_calls "before_iteration"
      (trace (snd (solve 1 (solver None None (Some 0%Z) both_hooks) problem 0
                         (start 4)))) = 1.
Proof.
  eexists. split; [vm_compute; reflexivity|].
  split; vm_compute; reflexivity.
Qed.

(** C7, as the code has it, on a run of two iterations. *)
Lemma C7_two_passes_witness :
  has_key both_hooks "before_iteration" = true /\
  has_key both_hooks "after_iteration" = true /\
  exists passes last,
    2%Z = Z.of_nat (List.length passes) /\
    observed (trace (snd (solve 5 (solver (Some (1 # 2)%Q) None (Some 2%Z)
                                          both_hooks) problem 0 (start 4))))
    = observed (trace (start 4))
      ++ flat_map (completed_pass (solver (Some (1 # 2)%Q) None (Some 2%Z)
                                          both_hooks) square) passes
      ++ open_pass (solver (Some (1 # 2)%Q) None (Some 2%Z) both_hooks)
                   square last /\
    hook_calls "after_iteration"
      (trace (snd (solve 5 (solver (Some (1 # 2)%Q) None (Some 2%Z) both_hooks)
                         problem 0 (start 4))))
    = hook_calls "after_iteration" (trace (start 4)) + List.length passes /\
    hook_calls "before_iteration"
      (trace (snd (solve 5 (solver (Some (1 # 2)%Q) None (Some 2%Z) both_hooks)
                         problem 0 (start 4))))
    = hook_calls "before_iteration" (trace (start 4)) + List.length passes + 1.
Proof.
  split; [reflexivity|]. split; [reflexivity|].
  refine (C7_hooks_per_pass (solver (Some (1 # 2)%Q) None (Some 2%Z) both_hooks)
            5 problem 0 (start 4)
            (snd (solve 5 (solver (Some (1 # 2)%Q) None (Some 2%Z) both_hooks)
                        problem 0 (start 4)))
            {| Optimizer := 13; Number_of_iterations := 2 |}
            eq_refl eq_refl _).
  vm_compute. reflexivity.
Defined.

(** C1: on the first test, with [tol = 2] and the other criteria unset, the
    functional-change clause is not skipped: it compares [True] with [tol],
    the test fails at a point whose gradient is 8, and [solve] returns after
    0 iterations. *)
Theorem C1_first_test_compares_True_with_tol :
  functional_change_operand (solver (Some 2%Q) None None []) 16 None
  = Py.PyBool true /\
  keep_going (solver (Some 2%Q) None None []) 8 16 None 0 = false /\
  fst (solve 5 (solver (Some 2%Q) None None []) problem 0 (start 4))
  = Ok {| Optimizer := 0; Number_of_iterations := 0 |}.
Proof. repeat split; vm_compute; reflexivity. Qed.

(** C4: a run stopped by the iteration budget ([maxiter = 2], two iterations
    made, the other two criteria not met) prints no termination line at all:
    line 125 compares the built-in [iter] with [maxiter]. *)
Theorem C4_budget_stop_is_not_reported :
  fst (solve 5 (solver (Some (1 # 2)%Q) None (Some 2%Z) []) problem 0 (start 4))
  = Ok {| Optimizer := 13; Number_of_iterations := 2 |} /\
  existsb is_max_iter
    (trace (snd (solve 5 (solver (Some (1 # 2)%Q) None (Some 2%Z) []) problem 0
                       (start 4)))) = false /\
  reason (solver (Some (1 # 2)%Q) None (Some 2%Z) []) 2 1 (Some 4%Q) 2 = None.
Proof. repeat split; vm_compute; reflexivity. Qed.


(* ===================================================================== *)
(** ** More on the loop: what a pass commits                              *)
(* ===================================================================== *)

Section Passes.

Context {V : Type} {IV : Iterate V}.

(** The state after lines 65-74 of a pass started in [st]. *)
Lemma loop_body_break (self : SteepestDescent) (o : Objective V) (v : vars)
    (st : state V) :
  let gv := gradient o (cells st (m v)) in
  let jv := current_j o v st in
  keep_going self (v_norm gv) jv (j_prev v) (it v) = false ->
  exists st',
    loop_body self o v st = (Ok (Break v jv (next st)), st') /\
    cells st' (next st) = gv /\
    next st' = S (next st) /\
    (forall l, l < next st -> cells st' l = cells st l) /\
    trace st' = trace st ++ head_events self o v st.
Proof.
  intros gv jv Hgo. subst gv jv.
  exists {| cells := fun l' => if Nat.eqb l' (next st)
                              then gradient o (cells st (m v))
                              else cells st l';
            next := S (next st);
            trace := trace st ++ head_events self o v st |}.
  split.
  - unfold loop_body, head_events, current_j in *.
    destruct (j v) as [q|], (has_key (hooks self) "before_iteration"),
             (disp self);
      cbv [bind call call_gradient call_hook when norm inner emit alloc read
           ret raise];
      cbn [cells next trace app]; rewrite ?Nat.eqb_refl, <- ?app_assoc;
      cbn [app]; rewrite Hgo; reflexivity.
  - cbn [cells next trace]. rewrite Nat.eqb_refl.
    repeat split; auto.
    intros l Hl. destruct (Nat.eqb_spec l (next st)); [lia | reflexivity].
Qed.

(** Lines 103-120 of a pass whose convergence test and slope test let it
    go on, run from the state lines 65-74 leave. *)
Lemma loop_body_step (self : SteepestDescent) (o : Objective V) (v : vars)
    (st : state V) :
  let gv := gradient o (cells st (m v)) in
  let jv := current_j o v st in
  let g := next st in
  keep_going self (v_norm gv) jv (j_prev v) (it v) = true ->
  Qle_bool 0 (- v_inner gv gv) = false ->
  loop_body self o v st =
  (alpha <- search (ls self) (phi o (m_prev v) g) (phi_dphi o (m_prev v) g) ;;
   m' <- clone (m_prev v) ;;
   axpy m' (- alpha) g ;;
   j_new <- phi o (m_prev v) g alpha ;;
   m_prev' <- clone m' ;;
   match callback self with
   | Some f => d <- neg g ;; emit (EvCallback f j_new d m')
   | None => ret tt
   end ;;
   when (has_key (hooks self) "after_iteration")
        (call_hook self "after_iteration" j_new g) ;;
   ret (Continue {| j := Some j_new; j_prev := Some jv; m := m';
                    m_prev := m_prev'; it := (it v + 1)%Z |}))
    {| cells := fun l' => if Nat.eqb l' g then gv else cells st l';
       next := S g;
       trace := trace st ++ head_events self o v st |}.
Proof.
  intros gv jv g Hgo Hs. subst gv jv g.
  unfold loop_body, head_events, current_j in *.
  destruct (j v) as [q|], (has_key (hooks self) "before_iteration"),
           (disp self);
    cbv [bind call call_gradient call_hook when norm inner emit alloc read
         ret raise];
    cbn [cells next trace app]; rewrite ?Nat.eqb_refl, <- ?app_assoc;
    cbn [app]; rewrite Hgo; cbn [negb cells]; rewrite ?Nat.eqb_refl, Hs;
    reflexivity.
Qed.

(** What a completed pass commits: the new iterate and its snapshot are two
    new objects, both holding [m_prev - alpha * grad] for the accepted step
    length [alpha], and the cached objective value is the objective there. *)
Lemma loop_body_commit (self : SteepestDescent) (o : Objective V) (v v' : vars)
    (st st' : state V) :
  loop_body self o v st = (Ok (Continue v'), st') ->
  next st < m v' /\ m v' < m_prev v' /\ m_prev v' < next st' /\
  (m_prev v < next st ->
   exists alpha,
     let xnew := v_axpy (- alpha) (gradient o (cells st (m v)))
                        (cells st (m_prev v)) in
     cells st' (m v') = xnew /\ cells st' (m_prev v') = xnew /\
     j v' = Some (value o xnew)).
Proof.
  intros H.
  destruct (loop_body_spec self o v st) as (r & s & E & _ & Hr).
  rewrite H in E. injection E as <- <-.
  destruct Hr as (Hgo & Hlt & _).
  assert (Hs : Qle_bool 0 (- v_inner (gradient o (cells st (m v)))
                                     (gradient o (cells st (m v)))) = false).
  { destruct (Qle_bool 0 _) eqn:Hb; [|reflexivity].
    apply slope_test in Hb. lra. }
  rewrite (loop_body_step self o v st Hgo Hs) in H.
  set (gv := gradient o (cells st (m v))) in *.
  set (g := next st) in *.
  set (st1 := {| cells := fun l' => if Nat.eqb l' g then gv else cells st l';
                 next := S g;
                 trace := trace st ++ head_events self o v st |}) in *.
  set (st1s := {| cells := cells st1; next := next st1;
                  trace := trace st1 ++ [EvSearch] |}).
  destruct (run_search_quiet _ _ (phi_run o (m_prev v) g)
              (phi_dphi_run o (m_prev v) g) (ls self) st1s)
    as (st2 & [[Hn2 Hc2] _] & Hr).
  unfold bind at 1, search, bind at 1, emit at 1 in H. fold st1s in H.
  destruct Hr as [E | [alpha E]]; rewrite E in H; [discriminate|].
  cbn [next st1s st1] in Hn2.
  assert (Hgv : cells st2 g = gv).
  { rewrite Hc2 by (simpl; lia). simpl. now rewrite Nat.eqb_refl. }
  assert (Hmp : m_prev v < next st -> cells st2 (m_prev v) = cells st (m_prev v)).
  { intros Hlt'. rewrite Hc2 by (simpl; lia). simpl.
    destruct (Nat.eqb_spec (m_prev v) g); [subst g; lia | reflexivity]. }
  revert H.
  destruct (callback self) as [f|],
           (has_key (hooks self) "after_iteration");
    cbv [bind clone axpy phi call neg emit when call_hook read write alloc ret];
    cbn [cells next trace];
    intros H; injection H as <- <-; cbn [m m_prev j cells next];
    (split; [subst g; lia|]); (split; [lia|]); (split; [lia|]);
    intros Hlt'; exists alpha; cbn zeta;
    repeat match goal with
           | |- context [Nat.eqb ?a ?b] =>
             destruct (Nat.eqb_spec a b); try lia
           end;
    rewrite ?Hgv, ?(Hmp Hlt'); repeat split; reflexivity.
Qed.

(** *** The convergence test, clause by clause *)

Lemma keep_going_budget (self : SteepestDescent) (k : Z) (n jv : Q)
    (jp : option Q) (i : Z) :
  maxiter self = Some k -> keep_going self n jv jp i = true -> (i < k)%Z.
Proof.
  intros Hm H. unfold keep_going in H. rewrite Hm in H.
  apply andb_prop in H as [_ H].
  change (match (inject_Z i ?= inject_Z k)%Q with Lt => true | _ => false end
          = true) in H.
  destruct (inject_Z i ?= inject_Z k)%Q eqn:E; try discriminate.
  rewrite Zlt_Qlt. apply (proj2 (Qlt_alt (inject_Z i) (inject_Z k))).
  exact E.
Qed.

Lemma keep_going_only_budget (self : SteepestDescent) (k : Z) (n jv : Q)
    (jp : option Q) (i : Z) :
  tol self = None -> gtol self = None -> maxiter self = Some k ->
  keep_going self n jv jp i = false -> (k <= i)%Z.
Proof.
  intros Ht Hg Hm H. unfold keep_going, functional_change_operand in H.
  rewrite Ht, Hg, Hm in H.
  change (match (inject_Z i ?= inject_Z k)%Q with Lt => true | _ => false end
          = false) in H.
  destruct (Z.lt_ge_cases i k) as [Hlt | Hge]; [|exact Hge].
  assert (E : (inject_Z i ?= inject_Z k)%Q = Lt)
    by (rewrite Zlt_Qlt in Hlt; apply (proj1 (Qlt_alt _ _)); exact Hlt).
  rewrite E in H. discriminate.
Qed.


(** *** Counting what a run adds to the trace *)

Lemma printed_app (a b : list (event V)) :
  printed (a ++ b) = printed a ++ printed b.
Proof. apply filter_app. Qed.

Lemma callbacks_app (a b : list (event V)) :
  callbacks (a ++ b) = callbacks a + callbacks b.
Proof. unfold callbacks. now rewrite filter_app, length_app. Qed.

Lemma switched_off_nil (self : SteepestDescent) :
  switched_off self ([] : list (event V)).
Proof. repeat split. Qed.

Lemma switched_off_app (self : SteepestDescent) (a b : list (event V)) :
  switched_off self a -> switched_off self b -> switched_off self (a ++ b).
Proof.
  intros (Pa & Ca & Ha) (Pb & Cb & Hb). repeat split.
  - intros Hd. now rewrite printed_app, Pa, Pb.
  - intros Hc. now rewrite callbacks_app, Ca, Cb.
  - intros key Hk. now rewrite hook_calls_app, Ha, Hb.
Qed.

Lemma switched_off_head (self : SteepestDescent) (o : Objective V) (v : vars)
    (st : state V) :
  switched_off self (head_events self o v st).
Proof.
  unfold head_events. repeat split.
  - intros ->. destruct (has_key (hooks self) "before_iteration"); reflexivity.
  - intros _.
    destruct (has_key (hooks self) "before_iteration"), (disp self);
      reflexivity.
  - intros key Hk.
    destruct (has_key (hooks self) "before_iteration") eqn:Hb.
    + assert (Hne : String.eqb "before_iteration" key = false).
      { destruct (String.eqb_spec "before_iteration" key); [|reflexivity].
        subst key. congruence. }
      unfold hook_calls. cbn [filter app is_hook]. rewrite Hne.
      destruct (disp self); reflexivity.
    + destruct (disp self); reflexivity.
Qed.

Lemma switched_off_tail (self : SteepestDescent) (j_new : Q) (g : loc) (gv : V)
    (d m' : loc) :
  switched_off self (EvSearch :: tail_events self j_new g gv d m').
Proof.
  unfold tail_events. repeat split.
  - intros _.
    destruct (callback self), (has_key (hooks self) "after_iteration");
      reflexivity.
  - intros ->. destruct (has_key (hooks self) "after_iteration"); reflexivity.
  - intros key Hk.
    destruct (has_key (hooks self) "after_iteration") eqn:Ha.
    + assert (Hne : String.eqb "after_iteration" key = false).
      { destruct (String.eqb_spec "after_iteration" key); [|reflexivity].
        subst key. congruence. }
      unfold hook_calls.
      destruct (callback self); cbn [filter app is_hook]; rewrite Hne;
        reflexivity.
    + destruct (callback self); reflexivity.
Qed.

Lemma switched_off_final (self : SteepestDescent) (v : vars) (jv : Q)
    (grad : loc) (st : state V) :
  switched_off self (final_events self v jv grad st).
Proof.
  unfold final_events. repeat split.
  - now intros ->.
  - intros _. destruct (disp self); [|reflexivity].
    destruct (reason self _ jv (j_prev v) (it v)); reflexivity.
  - intros key _. destruct (disp self); [|reflexivity].
    destruct (reason self _ jv (j_prev v) (it v)); reflexivity.
Qed.

Lemma searches_tail (self : SteepestDescent) (j_new : Q) (g : loc) (gv : V)
    (d m' : loc) :
  searches (EvSearch :: tail_events self j_new g gv d m') = 1.
Proof.
  unfold tail_events.
  destruct (callback self), (has_key (hooks self) "after_iteration");
    reflexivity.
Qed.

Lemma callbacks_head (self : SteepestDescent) (o : Objective V) (v : vars)
    (st : state V) :
  callbacks (head_events self o v st) = 0.
Proof.
  unfold head_events.
  destruct (has_key (hooks self) "before_iteration"), (disp self); reflexivity.
Qed.

Lemma callbacks_tail (self : SteepestDescent) (f : callable) (j_new : Q)
    (g : loc) (gv : V) (d m' : loc) :
  callback self = Some f ->
  callbacks (EvSearch :: tail_events self j_new g gv d m') = 1.
Proof.
  intros Hc. unfold tail_events. rewrite Hc.
  destruct (has_key (hooks self) "after_iteration"); reflexivity.
Qed.

(** What the passes of a run add to the trace, and how far the counter
    gets. *)
Lemma while_true_counts (fuel : nat) (self : SteepestDescent) (o : Objective V)
    (v0 : vars) (st : state V) :
  it v0 = 0%Z ->
  let r := while_true fuel self o v0 st in
  exists tr,
    trace (snd r) = trace st ++ tr /\ switched_off self tr /\
    match fst r with
    | Ok (v, jv, g) =>
        (0 <= it v)%Z /\
        (forall k, maxiter self = Some k -> (it v <= Z.max 0 k)%Z) /\
        searches tr = Z.to_nat (it v) /\
        (forall f, callback self = Some f -> callbacks tr = Z.to_nat (it v)) /\
        exists n jp, keep_going self n jv jp (it v) = false
    | _ => True
    end.
Proof.
  intros H0 r. subst r.
  apply (while_true_inv self o
    (fun v s => exists tr,
       trace s = trace st ++ tr /\ switched_off self tr /\
       (0 <= it v)%Z /\
       (forall k, maxiter self = Some k -> (it v <= Z.max 0 k)%Z) /\
       searches tr = Z.to_nat (it v) /\
       (forall f, callback self = Some f -> callbacks tr = Z.to_nat (it v)))
    (fun r s => exists tr,
       trace s = trace st ++ tr /\ switched_off self tr /\
       match r with
       | Ok (v, jv, g) =>
           (0 <= it v)%Z /\
           (forall k, maxiter self = Some k -> (it v <= Z.max 0 k)%Z) /\
           searches tr = Z.to_nat (it v) /\
           (forall f, callback self = Some f -> callbacks tr = Z.to_nat (it v)) /\
           exists n jp, keep_going self n jv jp (it v) = false
       | _ => True
       end)).
  - intros v s (tr & Ht & Hoff & Hpos & Hmax & Hs & Hc).
    destruct (loop_body_spec self o v s) as (r & s' & E & _ & Hr).
    rewrite E.
    pose proof (switched_off_head self o v s) as Hh.
    destruct r as [[v' jv' g' | v'] | [msg|] |]; try contradiction.
    + destruct Hr as (Hgo & -> & -> & _ & Ht').
      exists (tr ++ head_events self o v s).
      split; [rewrite Ht', Ht; now rewrite app_assoc|].
      split; [now apply switched_off_app|].
      repeat split; auto.
      * rewrite searches_app, searches_head. lia.
      * intros f Hf. rewrite callbacks_app, callbacks_head, (Hc f Hf). lia.
      * eauto.
    + destruct Hr as (Hgo & _ & Hit & _ & j_new & d & _ & Ht').
      exists (tr ++ head_events self o v s
                 ++ EvSearch :: tail_events self j_new (next s)
                      (gradient o (cells s (m v))) d (m v')).
      split; [rewrite Ht', Ht; now rewrite <- !app_assoc|].
      split.
      { apply switched_off_app; [exact Hoff|].
        apply switched_off_app; [exact Hh | apply switched_off_tail]. }
      rewrite Hit. repeat split.
      * lia.
      * intros k Hk. pose proof (keep_going_budget self k _ _ _ _ Hk Hgo). lia.
      * rewrite !searches_app, searches_head, searches_tail, Hs.
        rewrite Z2Nat.inj_add by lia. simpl. lia.
      * intros f Hf.
        rewrite !callbacks_app, callbacks_head, (callbacks_tail self f) by exact Hf.
        rewrite (Hc f Hf), Z2Nat.inj_add by lia. simpl. lia.
    + destruct Hr as (_ & _ & _ & Ht').
      exists (tr ++ head_events self o v s).
      split; [rewrite Ht', Ht; now rewrite app_assoc|].
      split; [now apply switched_off_app | exact I].
    + destruct Hr as (_ & _ & Ht').
      exists (tr ++ head_events self o v s ++ [EvSearch]).
      split; [rewrite Ht', Ht; now rewrite <- !app_assoc|].
      split; [|exact I].
      apply switched_off_app; [exact Hoff|].
      apply switched_off_app; [exact Hh|]. repeat split.
  - intros v s (tr & Ht & Hoff & _). exists tr. auto.
  - exists []. rewrite app_nil_r. split; [reflexivity|].
    split; [apply switched_off_nil|]. rewrite H0.
    repeat split; try reflexivity; try lia.
Qed.

Lemma callbacks_final (self : SteepestDescent) (v : vars) (jv : Q)
    (grad : loc) (st : state V) :
  callbacks (final_events self v jv grad st) = 0.
Proof.
  unfold final_events. destruct (disp self); [|reflexivity].
  destruct (reason self _ jv (j_prev v) (it v)); reflexivity.
Qed.

(** The same for [solve]: the first pass starts with the counter at 0, and
    the report after the loop is one more printed line at most. *)
Lemma solve_adds (fuel : nat) (self : SteepestDescent) (problem : Problem V)
    (m0 : loc) (st : state V) :
  exists tr,
    trace (snd (solve fuel self problem m0 st)) = trace st ++ tr /\
    switched_off self tr /\
    match fst (solve fuel self problem m0 st) with
    | Ok sol =>
        let n := Number_of_iterations sol in
        (0 <= n)%Z /\
        (forall k, maxiter self = Some k -> (n <= Z.max 0 k)%Z) /\
        searches tr = Z.to_nat n /\
        (forall f, callback self = Some f -> callbacks tr = Z.to_nat n) /\
        exists nn jv jp, keep_going self nn jv jp n = false
    | _ => True
    end.
Proof.
  pose proof (solve_spec fuel self problem m0 st) as Hs.
  destruct (while_true_counts fuel self (obj problem) (entry_vars m0 st)
              (entry_state m0 st) eq_refl) as (tr & Ht & Hoff & Hr).
  destruct (while_true fuel self (obj problem) (entry_vars m0 st)
              (entry_state m0 st)) as [[[[v jv] grad] | e |] s'];
    cbn [fst snd] in *.
  - destruct Hs as (s'' & -> & _ & _ & Ht''). cbn [fst snd].
    destruct Hr as (Hpos & Hmax & Hse & Hcb & n & jp & Hgo).
    exists (tr ++ final_events self v jv grad s').
    split; [rewrite Ht'', Ht; now rewrite app_assoc|].
    split; [apply switched_off_app; [exact Hoff | apply switched_off_final]|].
    cbn [Number_of_iterations]. repeat split; auto.
    + rewrite searches_app, searches_final. lia.
    + intros f Hf. rewrite callbacks_app, (Hcb f Hf), callbacks_final. lia.
    + eauto.
  - rewrite Hs. exists tr. auto.
  - rewrite Hs. exists tr. auto.
Qed.

(** X1: a run that returns has called the line search exactly once per
    iteration it counts, and the callback, when one is set, as often. *)
Theorem solve_one_search_per_iteration (fuel : nat) (self : SteepestDescent)
    (problem : Problem V) (m0 : loc) (st st' : state V) (sol : Solution) :
  solve fuel self problem m0 st = (Ok sol, st') ->
  exists tr,
    trace st' = trace st ++ tr /\
    Z.of_nat (searches tr) = Number_of_iterations sol /\
    (forall f, callback self = Some f ->
               Z.of_nat (callbacks tr) = Number_of_iterations sol).
Proof.
  intros E.
  destruct (solve_adds fuel self problem m0 st) as (tr & Ht & _ & Hr).
  rewrite E in Ht, Hr. cbn [fst snd] in Ht, Hr.
  destruct Hr as (Hpos & _ & Hs & Hc & _).
  exists tr. split; [exact Ht|]. split.
  - rewrite Hs. now apply Z2Nat.id.
  - intros f Hf. rewrite (Hc f Hf). now apply Z2Nat.id.
Qed.


(** X3: with the iteration budget as the only criterion, a run that returns
    has used the budget up: it made exactly [maxiter] iterations (none for a
    negative [maxiter]). *)
Theorem solve_only_budget_runs_it_out (fuel : nat) (self : SteepestDescent)
    (problem : Problem V) (m0 : loc) (st st' : state V) (sol : Solution)
    (k : Z) :
  tol self = None -> gtol self = None -> maxiter self = Some k ->
  solve fuel self problem m0 st = (Ok sol, st') ->
  Number_of_iterations sol = Z.max 0 k.
Proof.
  intros Ht Hg Hk E.
  destruct (solve_adds fuel self problem m0 st) as (tr & _ & _ & Hr).
  rewrite E in Hr. cbn [fst] in Hr.
  destruct Hr as (Hpos & Hmax & _ & _ & n & jv & jp & Hgo).
  specialize (Hmax k Hk).
  pose proof (keep_going_only_budget self k n jv jp _ Ht Hg Hk Hgo). lia.
Qed.

(** X4: with [disp] off nothing is printed, however the run ends. *)
Theorem solve_prints_nothing_without_disp (fuel : nat) (self : SteepestDescent)
    (problem : Problem V) (m0 : loc) (st : state V) :
  disp self = false ->
  printed (trace (snd (solve fuel self problem m0 st))) = printed (trace st).
Proof.
  intros Hd.
  destruct (solve_adds fuel self problem m0 st) as (tr & Ht & (Hp & _) & _).
  now rewrite Ht, printed_app, Hp, app_nil_r.
Qed.

(** X5: no hook is called under a key that is not registered, and no callback
    when none is set, however the run ends. *)
Theorem solve_calls_only_what_is_registered (fuel : nat)
    (self : SteepestDescent) (problem : Problem V) (m0 : loc) (st : state V) :
  (callback self = None ->
   callbacks (trace (snd (solve fuel self problem m0 st)))
   = callbacks (trace st)) /\
  (forall key, has_key (hooks self) key = false ->
   hook_calls key (trace (snd (solve fuel self problem m0 st)))
   = hook_calls key (trace st)).
Proof.
  destruct (solve_adds fuel self problem m0 st) as (tr & Ht & (_ & Hc & Hh) & _).
  split.
  - intros Hn. rewrite Ht, callbacks_app, Hc by exact Hn. lia.
  - intros key Hk. rewrite Ht, hook_calls_app, Hh by exact Hk. lia.
Qed.

(** The loop ends within [maxiter - it + 1] passes. *)
Lemma while_true_ends (self : SteepestDescent) (o : Objective V) (k : Z) :
  maxiter self = Some k ->
  forall fuel v (st : state V),
    Z.to_nat (k - it v) < fuel ->
    fst (while_true fuel self o v st) <> OutOfFuel.
Proof.
  intros Hk fuel. induction fuel as [|fuel IH]; intros v st Hf; [lia|].
  simpl. unfold bind.
  destruct (loop_body_spec self o v st) as (r & s' & E & _ & Hr).
  rewrite E.
  destruct r as [[v' jv' g' | v'] | e |]; try discriminate; try contradiction.
  destruct Hr as (Hgo & _ & Hit & _).
  pose proof (keep_going_budget self k _ _ _ _ Hk Hgo) as Hlt.
  apply IH. rewrite Hit. lia.
Qed.

Lemma solve_ends (fuel : nat) (self : SteepestDescent)
    (problem : Problem V) (m0 : loc) (st : state V) (k : Z) :
  maxiter self = Some k -> Z.to_nat k < fuel ->
  fst (solve fuel self problem m0 st) <> OutOfFuel.
Proof.
  intros Hk Hf.
  pose proof (solve_spec fuel self problem m0 st) as Hs.
  pose proof (while_true_ends self (obj problem) k Hk fuel (entry_vars m0 st)
                (entry_state m0 st)) as He.
  cbn [it entry_vars] in He. rewrite Z.sub_0_r in He. specialize (He Hf).
  destruct (while_true fuel self (obj problem) (entry_vars m0 st)
              (entry_state m0 st)) as [[[[v jv] grad] | e |] s'].
  - destruct Hs as (s'' & -> & _). discriminate.
  - rewrite Hs. discriminate.
  - now elim He.
Qed.

(** X6: with [maxiter] set, [solve] ends within [maxiter + 1] passes of the
    loop: it returns or raises, whatever the objective and the line search
    do. *)
Theorem solve_ends_within_budget (fuel : nat) (self : SteepestDescent)
    (problem : Problem V) (m0 : loc) (st : state V) (k : Z) :
  maxiter self = Some k -> Z.to_nat k < fuel ->
  (exists sol, fst (solve fuel self problem m0 st) = Ok sol) \/
  (exists e, fst (solve fuel self problem m0 st) = Raise e).
Proof.
  intros Hk Hf.
  pose proof (solve_ends fuel self problem m0 st k Hk Hf) as He.
  destruct (fst (solve fuel self problem m0 st)) as [sol | e |].
  - left. now exists sol.
  - right. now exists e.
  - now elim He.
Qed.

(** X7: a solver built by [__init__] from options without a "maxiter" entry
    has the budget 200: every [solve] ends within 201 passes, and a returned
    count is at most 200. *)
Theorem default_budget_bounds_solve
    (get_line_search_method : string -> LsOptions -> result LineSearch)
    (t : option Q) (options : Options) (hks : Hooks) (self : SteepestDescent)
    (problem : Problem V) (m0 : loc) (st : state V) :
  o_maxiter options = None ->
  __init__ get_line_search_method t options hks = Ok self ->
  fst (solve 201 self problem m0 st) <> OutOfFuel /\
  (forall fuel sol st',
     solve fuel self problem m0 st = (Ok sol, st') ->
     (0 <= Number_of_iterations sol <= 200)%Z).
Proof.
  intros Hm Hi.
  assert (Hk : maxiter self = Some 200%Z).
  { unfold __init__ in Hi. rewrite Hm in Hi.
    destruct (get_line_search_method _ _); try discriminate.
    injection Hi as <-. reflexivity. }
  split.
  - apply (solve_ends 201 self problem m0 st 200 Hk).
    simpl. lia.
  - intros fuel sol st' E.
    destruct (solve_adds fuel self problem m0 st) as (tr & _ & _ & Hr).
    rewrite E in Hr. cbn [fst] in Hr.
    destruct Hr as (Hpos & Hmax & _). specialize (Hmax 200%Z Hk). lia.
Qed.

(** *** What the loop knows when it ends *)

(** At [break] the current iterate is the caller's object if no iteration
    was made and an object of the solver's own otherwise; [grad] and the
    cached [j] are the gradient and the objective value there, and the
    convergence test has failed on them. *)
Lemma while_true_state (fuel : nat) (self : SteepestDescent) (o : Objective V)
    (m0 : loc) (st : state V) :
  m0 < next st ->
  match while_true fuel self o (entry_vars m0 st) (entry_state m0 st) with
  | (Ok (v, jv, g), s') =>
      ((it v = 0%Z /\ m v = m0 /\ j_prev v = None) \/
       ((0 < it v)%Z /\ next st <= m v /\ j_prev v <> None)) /\
      m v < next s' /\
      cells s' g = gradient o (cells s' (m v)) /\
      jv = value o (cells s' (m v)) /\
      keep_going self (v_norm (gradient o (cells s' (m v)))) jv (j_prev v)
                 (it v) = false
  | _ => True
  end.
Proof.
  intros Hm0.
  assert (Hl : (fun r s' =>
       match r with
       | Ok (v, jv, g) =>
           ((it v = 0%Z /\ m v = m0 /\ j_prev v = None) \/
            ((0 < it v)%Z /\ next st <= m v /\ j_prev v <> None)) /\
           m v < next s' /\
           cells s' g = gradient o (cells s' (m v)) /\
           jv = value o (cells s' (m v)) /\
           keep_going self (v_norm (gradient o (cells s' (m v)))) jv (j_prev v)
                      (it v) = false
       | _ => True
       end)
       (fst (while_true fuel self o (entry_vars m0 st) (entry_state m0 st)))
       (snd (while_true fuel self o (entry_vars m0 st) (entry_state m0 st)))).
  { apply (while_true_inv self o
      (fun v s =>
         m v < next s /\ m_prev v < next s /\ next st <= next s /\
         (j v = None \/ j v = Some (value o (cells s (m v)))) /\
         ((it v = 0%Z /\ m v = m0 /\ j_prev v = None) \/
          ((0 < it v)%Z /\ next st <= m v /\ j_prev v <> None)))).
    - intros v s (Hm & Hmp & Hn & Hj & Hit).
      assert (Hcur : current_j o v s = value o (cells s (m v))).
      { unfold current_j. destruct Hj as [-> | ->]; reflexivity. }
      destruct (keep_going self (v_norm (gradient o (cells s (m v))))
                  (current_j o v s) (j_prev v) (it v)) eqn:Hgo.
      + destruct (loop_body_spec self o v s) as (r & s' & E & _ & Hr).
        rewrite E.
        destruct r as [[v' jv' g' | v'] | e |]; try exact I;
          try contradiction.
        * destruct Hr as (Hstop & _). congruence.
        * destruct Hr as (_ & _ & Hit' & Hjp' & _).
          destruct (loop_body_commit self o v v' s s' E)
            as (H1 & H2 & H3 & Hx).
          destruct (Hx Hmp) as (alpha & Hc1 & _ & Hj').
          repeat split; try lia.
          -- right. rewrite Hj', Hc1. reflexivity.
          -- right. rewrite Hjp'. repeat split; try discriminate.
             ++ destruct Hit as [(H0 & _) | (Hpos & _)]; lia.
             ++ lia.
      + destruct (loop_body_break self o v s Hgo)
          as (s' & E & Hg & Hn' & Hc & _).
        rewrite E.
        rewrite (Hc (m v) Hm), Hg.
        repeat split; auto; try lia.
    - intros; exact I.
    - cbn [entry_vars entry_state m m_prev next j it].
      repeat split; auto; lia. }
  destruct (while_true fuel self o (entry_vars m0 st) (entry_state m0 st))
    as [[[[v jv] g] | e |] s']; exact Hl.
Qed.

Lemma reason_gtol (self : SteepestDescent) (g n jv : Q) (jp : option Q)
    (i : Z) :
  gtol self = Some g -> (n <= g)%Q ->
  reason self n jv jp i = Some (GtolReached i).
Proof.
  intros Hg Hle. unfold reason. rewrite Hg.
  assert (Hm : (not_None (maxiter self)
                && Py.le Py.PyIter (Py.of_int (maxiter self))) = false).
  { destruct (maxiter self); reflexivity. }
  rewrite Hm.
  assert (Hn : Py.le (Py.PyFloat n) (Py.of_float (Some g)) = true).
  { change (match (n ?= g)%Q with Gt => false | _ => true end = true).
    assert (Hne : (n ?= g)%Q <> Gt) by (apply Qle_alt; exact Hle).
    destruct (n ?= g)%Q; congruence. }
  rewrite Hn. reflexivity.
Qed.

(** [solve] in terms of the loop's last state. *)
Lemma solve_state (fuel : nat) (self : SteepestDescent) (problem : Problem V)
    (m0 : loc) (st st' : state V) (sol : Solution) :
  m0 < next st ->
  solve fuel self problem m0 st = (Ok sol, st') ->
  let o := obj problem in
  let x := cells st' (Optimizer sol) in
  let n := Number_of_iterations sol in
  Optimizer sol < next st' /\
  exists jp tr,
    ((n = 0%Z /\ Optimizer sol = m0 /\ jp = None) \/
     ((0 < n)%Z /\ next st <= Optimizer sol /\ jp <> None)) /\
    keep_going self (v_norm (gradient o x)) (value o x) jp n = false /\
    trace st' = tr ++ (if disp self then
                         match reason self (v_norm (gradient o x)) (value o x) jp n
                         with Some msg => [EvPrint msg] | None => [] end
                       else []).
Proof.
  intros Hm0 E o x n.
  pose proof (solve_spec fuel self problem m0 st) as Hs.
  pose proof (while_true_state fuel self o m0 st Hm0) as Hw.
  fold o in Hs.
  destruct (while_true fuel self o (entry_vars m0 st) (entry_state m0 st))
    as [[[[v jv] g] | e |] s'];
    [| rewrite Hs in E; discriminate | rewrite Hs in E; discriminate].
  destruct Hs as (s'' & Es & Hc & Hn & Ht).
  rewrite Es in E. injection E as <- <-.
  destruct Hw as (Hal & Hlt & Hg & Hj & Hgo).
  subst x n. cbn [Optimizer Number_of_iterations].
  rewrite Hc, Hn.
  split; [exact Hlt|].
  exists (j_prev v), (trace s').
  rewrite <- Hj. split; [exact Hal|]. split; [exact Hgo|].
  rewrite Ht. unfold final_events. now rewrite Hg.
Qed.

(** X8: the iterate [solve] returns is the caller's own object when no
    iteration was made, and otherwise an object [solve] created, distinct
    from every object the caller had. *)
Theorem solve_returns_input_or_new_object (fuel : nat) (self : SteepestDescent)
    (problem : Problem V) (m0 : loc) (st st' : state V) (sol : Solution) :
  m0 < next st ->
  solve fuel self problem m0 st = (Ok sol, st') ->
  (Number_of_iterations sol = 0%Z /\ Optimizer sol = m0) \/
  ((0 < Number_of_iterations sol)%Z /\
   next st <= Optimizer sol /\ Optimizer sol < next st').
Proof.
  intros Hm0 E.
  destruct (solve_state fuel self problem m0 st st' sol Hm0 E)
    as (Hlt & jp & tr & [(H1 & H2 & _) | (H1 & H2 & _)] & _);
    [now left | right; auto].
Qed.


(** X10: with [disp] on and [gtol] set, a run that returns a point whose
    gradient norm is at most [gtol] ends its output with the line
    "Tolerance reached: |dJ| < gtol in <count> iterations.". *)
Theorem solve_reports_gradient_tolerance (fuel : nat) (self : SteepestDescent)
    (problem : Problem V) (m0 : loc) (st st' : state V) (sol : Solution)
    (g : Q) :
  m0 < next st ->
  solve fuel self problem m0 st = (Ok sol, st') ->
  disp self = true -> gtol self = Some g ->
  (v_norm (gradient (obj problem) (cells st' (Optimizer sol))) <= g)%Q ->
  exists tr,
    trace st' = tr ++ [EvPrint (GtolReached (Number_of_iterations sol))].
Proof.
  intros Hm0 E Hd Hg Hle.
  destruct (solve_state fuel self problem m0 st st' sol Hm0 E)
    as (_ & jp & tr & _ & _ & Ht).
  exists tr. rewrite Ht, Hd.
  now rewrite (reason_gtol self g _ _ jp _ Hg Hle).
Qed.



(** *** The calls of a run, pass by pass *)




Lemma tally_final (self : SteepestDescent) (v : vars) (jv : Q) (grad : loc)
    (st : state V) :
  tally self (final_events self v jv grad st) 0 0 0 0.
Proof.
  unfold final_events.
  destruct (disp self); [|repeat split].
  destruct (reason self _ jv (j_prev v) (it v)); repeat split.
Qed.



(** *** The gradient objects stay as they were evaluated *)

(** However a pass ends, the gradient object it created holds the gradient
    of the iterate the pass started from. *)
Lemma loop_body_gradient (self : SteepestDescent) (o : Objective V) (v : vars)
    (st : state V) (r : result pass) (st' : state V) :
  loop_body self o v st = (r, st') ->
  next st < next st' /\
  cells st' (next st) = gradient o (cells st (m v)).
Proof.
  intros H.
  set (gv := gradient o (cells st (m v))) in *.
  destruct (keep_going self (v_norm gv) (current_j o v st) (j_prev v) (it v))
    eqn:Hgo.
  2:{ destruct (loop_body_break self o v st Hgo) as (s' & E & Hg & Hn & _).
      rewrite E in H. injection H as <- <-. split; [lia | exact Hg]. }
  destruct (Qle_bool 0 (- v_inner gv gv)) eqn:Hs.
  { assert (E : loop_body self o v st
              = (Raise (RuntimeError not_descent),
                 {| cells := fun l' => if Nat.eqb l' (next st) then gv
                                       else cells st l';
                    next := S (next st);
                    trace := trace st ++ head_events self o v st |})).
    { subst gv. unfold loop_body, head_events, current_j in *.
      destruct (j v) as [q|], (has_key (hooks self) "before_iteration"),
               (disp self);
        cbv [bind call call_gradient call_hook when norm inner emit alloc read
             ret raise];
        cbn [cells next trace app]; rewrite ?Nat.eqb_refl, <- ?app_assoc;
        cbn [app]; rewrite Hgo; cbn [negb cells]; rewrite ?Nat.eqb_refl, Hs;
        reflexivity. }
    rewrite E in H. injection H as <- <-.
    cbn [cells next]. rewrite Nat.eqb_refl. split; [lia|auto]. }
  subst gv. rewrite (loop_body_step self o v st Hgo Hs) in H.
  set (gv := gradient o (cells st (m v))) in *.
  set (g := next st) in *.
  set (st1 := {| cells := fun l' => if Nat.eqb l' g then gv else cells st l';
                 next := S g;
                 trace := trace st ++ head_events self o v st |}) in *.
  set (st1s := {| cells := cells st1; next := next st1;
                  trace := trace st1 ++ [EvSearch] |}).
  destruct (run_search_quiet _ _ (phi_run o (m_prev v) g)
              (phi_dphi_run o (m_prev v) g) (ls self) st1s)
    as (st2 & [[Hn2 Hc2] _] & Hr).
  cbn [next st1s st1] in Hn2.
  assert (Hgv : cells st2 g = gv).
  { rewrite Hc2 by (simpl; lia). simpl. now rewrite Nat.eqb_refl. }
  unfold bind at 1, search, bind at 1, emit at 1 in H. fold st1s in H.
  destruct Hr as [E | [alpha E]]; rewrite E in H.
  { injection H as <- <-. split; [lia | exact Hgv]. }
  revert H.
  destruct (callback self) as [f|],
           (has_key (hooks self) "after_iteration");
    cbv [bind clone axpy phi call neg emit when call_hook read write alloc ret];
    cbn [cells next trace];
    intros H; injection H as <- <-; cbn [cells next];
    (split; [lia|]);
    repeat match goal with
           | |- context [Nat.eqb ?a ?b] =>
             destruct (Nat.eqb_spec a b); try lia
           end;
    exact Hgv.
Qed.

Lemma hook_in_head (self : SteepestDescent) (o : Objective V) (v : vars)
    (st : state V) (key : string) (f : callable) (jv : Q) (g : loc) (gv : V) :
  In (EvHook key f jv g gv) (head_events self o v st) ->
  g = next st /\ gv = gradient o (cells st (m v)).
Proof.
  unfold head_events. intros [H | H]; [discriminate|].
  apply in_app_or in H as [H | H].
  - destruct (has_key (hooks self) "before_iteration"); [|contradiction].
    destruct H as [[= _ _ _ <- <-] | []]. auto.
  - destruct (disp self); [|contradiction].
    destruct H as [H | []]. discriminate.
Qed.

Lemma hook_in_tail (self : SteepestDescent) (j_new : Q) (g0 : loc) (gv0 : V)
    (d m' : loc) (key : string) (f : callable) (jv : Q) (g : loc) (gv : V) :
  In (EvHook key f jv g gv) (EvSearch :: tail_events self j_new g0 gv0 d m') ->
  g = g0 /\ gv = gv0.
Proof.
  unfold tail_events. intros [H | H]; [discriminate|].
  apply in_app_or in H as [H | H].
  - destruct (callback self); [|contradiction].
    destruct H as [H | []]. discriminate.
  - destruct (has_key (hooks self) "after_iteration"); [|contradiction].
    destruct H as [[= _ _ _ <- <-] | []]. auto.
Qed.

Lemma hook_in_final (self : SteepestDescent) (v : vars) (jv0 : Q) (grad : loc)
    (st : state V) (key : string) (f : callable) (jv : Q) (g : loc) (gv : V) :
  ~ In (EvHook key f jv g gv) (final_events self v jv0 grad st).
Proof.
  unfold final_events. destruct (disp self); [|auto].
  destruct (reason self _ jv0 (j_prev v) (it v)); [|auto].
  intros [H | []]. discriminate.
Qed.

(** X13: every object a hook received still holds, when [solve] ends, the
    content it had when the hook was called: the solver never writes to a
    gradient object. *)
Theorem solve_keeps_hook_arguments (fuel : nat) (self : SteepestDescent)
    (problem : Problem V) (m0 : loc) (st : state V) :
  exists tr,
    trace (snd (solve fuel self problem m0 st)) = trace st ++ tr /\
    forall key f jv g gv,
      In (EvHook key f jv g gv) tr ->
      cells (snd (solve fuel self problem m0 st)) g = gv.
Proof.
  set (o := obj problem).
  pose proof (solve_spec fuel self problem m0 st) as Hs. fold o in Hs.
  assert (Hl : exists tr,
    trace (snd (while_true fuel self o (entry_vars m0 st) (entry_state m0 st)))
    = trace st ++ tr /\
    forall key f jv g gv,
      In (EvHook key f jv g gv) tr ->
      cells (snd (while_true fuel self o (entry_vars m0 st)
                    (entry_state m0 st))) g = gv).
  { assert (Hgen : exists tr,
      trace (snd (while_true fuel self o (entry_vars m0 st) (entry_state m0 st)))
      = trace st ++ tr /\
      forall key f jv g gv,
        In (EvHook key f jv g gv) tr ->
        g < next (snd (while_true fuel self o (entry_vars m0 st)
                         (entry_state m0 st))) /\
        cells (snd (while_true fuel self o (entry_vars m0 st)
                      (entry_state m0 st))) g = gv).
    { apply (while_true_inv self o
        (fun _ s => exists tr,
           trace s = trace st ++ tr /\
           forall key f jv g gv,
             In (EvHook key f jv g gv) tr -> g < next s /\ cells s g = gv)
        (fun _ s => exists tr,
           trace s = trace st ++ tr /\
           forall key f jv g gv,
             In (EvHook key f jv g gv) tr -> g < next s /\ cells s g = gv)).
      - intros v s (tr & Ht & Hin).
        destruct (loop_body_spec self o v s) as (r & s' & E & [Hn Hc] & Hr).
        pose proof (loop_body_gradient self o v s r s' E) as [Hgn Hgc].
        rewrite E.
        assert (Hold : forall key f jv g gv,
                  In (EvHook key f jv g gv) tr ->
                  g < next s' /\ cells s' g = gv).
        { intros key f jv g gv H. destruct (Hin _ _ _ _ _ H) as [H1 H2].
          split; [lia|]. now rewrite Hc. }
        assert (Hhead : forall key f jv g gv,
                  In (EvHook key f jv g gv) (head_events self o v s) ->
                  g < next s' /\ cells s' g = gv).
        { intros key f jv g gv H.
          destruct (hook_in_head _ _ _ _ _ _ _ _ _ H) as [-> ->]. auto. }
        destruct r as [[v' jv' g' | v'] | [msg|] |]; try contradiction.
        + destruct Hr as (_ & _ & _ & _ & Ht').
          exists (tr ++ head_events self o v s).
          split; [rewrite Ht', Ht; now rewrite app_assoc|].
          intros key f jv g gv H. apply in_app_or in H as [H | H]; eauto.
        + destruct Hr as (_ & _ & _ & _ & j_new & d & _ & Ht').
          exists (tr ++ head_events self o v s
                     ++ EvSearch :: tail_events self j_new (next s)
                          (gradient o (cells s (m v))) d (m v')).
          split; [rewrite Ht', Ht; now rewrite <- !app_assoc|].
          intros key f jv g gv H.
          apply in_app_or in H as [H | H]; [eauto|].
          apply in_app_or in H as [H | H]; [eauto|].
          destruct (hook_in_tail _ _ _ _ _ _ _ _ _ _ _ H) as [-> ->]. auto.
        + destruct Hr as (_ & _ & _ & Ht').
          exists (tr ++ head_events self o v s).
          split; [rewrite Ht', Ht; now rewrite app_assoc|].
          intros key f jv g gv H. apply in_app_or in H as [H | H]; eauto.
        + destruct Hr as (_ & _ & Ht').
          exists (tr ++ head_events self o v s ++ [EvSearch]).
          split; [rewrite Ht', Ht; now rewrite <- !app_assoc|].
          intros key f jv g gv H.
          apply in_app_or in H as [H | H]; [eauto|].
          apply in_app_or in H as [H | H]; [eauto|].
          destruct H as [H | []]. discriminate.
      - auto.
      - exists []. rewrite app_nil_r. split; [reflexivity|].
        intros key f jv g gv []. }
    destruct Hgen as (tr & Ht & Hin). exists tr. split; [exact Ht|].
    intros key f jv g gv H. now apply (Hin key f jv g gv). }
  destruct Hl as (tr & Ht & Hin).
  destruct (while_true fuel self o (entry_vars m0 st) (entry_state m0 st))
    as [[[[v jv0] grad] | e |] s']; cbn [snd] in *.
  - destruct Hs as (s'' & -> & Hc & _ & Ht''). cbn [snd].
    exists (tr ++ final_events self v jv0 grad s').
    split; [rewrite Ht'', Ht; now rewrite app_assoc|].
    intros key f jv g gv H. rewrite Hc.
    apply in_app_or in H as [H | H]; [eauto|].
    now apply hook_in_final in H.
  - rewrite Hs. exists tr. auto.
  - rewrite Hs. exists tr. auto.
Qed.

End Passes.



(* ===================================================================== *)
(** ** The further properties on the one-dimensional instance            *)
(* ===================================================================== *)

(** Runs on the parabola from 4: stopped by the gradient tolerance (three
    iterations), by the functional change (four), by the budget (two), one
    with [disp] off, and one on the constant objective, which raises. *)
Abbreviation gtol_run :=
  (solve 10 (solver None (Some 1%Q) (Some 200%Z) []) problem 0 (start 4)).
Abbreviation tol_run :=
  (solve 10 (solver (Some (1 # 2)%Q) None (Some 200%Z) []) problem 0 (start 4)).
Abbreviation budget_run :=
  (solve 10 (solver None None (Some 2%Z) []) problem 0 (start 4)).
Abbreviation silent_run := (solve 10 silent_solver problem 0 (start 4)).
Abbreviation flat_run :=
  (solve 10 (solver None None (Some 200%Z) both_hooks) {| obj := flat |} 0
         (start 4)).

Lemma gtol_run_returns :
  gtol_run = (Ok {| Optimizer := 20; Number_of_iterations := 3 |}, snd gtol_run).
Proof. vm_compute. reflexivity. Defined.


Lemma budget_run_returns :
  budget_run
  = (Ok {| Optimizer := 13; Number_of_iterations := 2 |}, snd budget_run).
Proof. vm_compute. reflexivity. Defined.


(** One line search per iteration, on the run of three iterations. *)
Lemma solve_one_search_per_iteration_witness :
  gtol_run = (Ok {| Optimizer := 20; Number_of_iterations := 3 |}, snd gtol_run)
  /\
  exists tr,
    trace (snd gtol_run) = trace (start 4) ++ tr /\
    Z.of_nat (searches tr) = 3%Z /\
    (forall f, callback (solver None (Some 1%Q) (Some 200%Z) []) = Some f ->
               Z.of_nat (callbacks tr) = 3%Z).
Proof.
  split; [exact gtol_run_returns|].
  exact (solve_one_search_per_iteration 10 (solver None (Some 1%Q) (Some 200%Z) [])
           problem 0 (start 4) (snd gtol_run)
           {| Optimizer := 20; Number_of_iterations := 3 |} gtol_run_returns).
Defined.


(** The budget used up, on the run with [maxiter = 2] alone. *)
Lemma solve_only_budget_witness :
  budget_run
  = (Ok {| Optimizer := 13; Number_of_iterations := 2 |}, snd budget_run) /\
  2%Z = Z.max 0 2.
Proof.
  split; [exact budget_run_returns|].
  exact (solve_only_budget_runs_it_out 10 (solver None None (Some 2%Z) [])
           problem 0 (start 4) (snd budget_run)
           {| Optimizer := 13; Number_of_iterations := 2 |} 2
           eq_refl eq_refl eq_refl budget_run_returns).
Defined.

(** Nothing printed by the solver with [disp] off. *)
Lemma solve_prints_nothing_witness :
  disp silent_solver = false /\
  printed (trace (snd silent_run)) = printed (trace (start 4)).
Proof.
  split; [reflexivity|].
  exact (solve_prints_nothing_without_disp 10 silent_solver problem 0 (start 4)
           eq_refl).
Defined.

(** The run with [maxiter = 2] ends with fuel 3. *)
Lemma solve_ends_within_budget_witness :
  Z.to_nat 2 < 3 /\
  ((exists sol, fst (solve 3 (solver None None (Some 2%Z) []) problem 0 (start 4))
                = Ok sol) \/
   (exists e, fst (solve 3 (solver None None (Some 2%Z) []) problem 0 (start 4))
              = Raise e)).
Proof.
  assert (H : Z.to_nat 2 < 3) by (simpl; lia).
  split; [exact H|].
  exact (solve_ends_within_budget 3 (solver None None (Some 2%Z) []) problem 0
           (start 4) 2 eq_refl H).
Defined.

(** The default budget, on a solver built from options naming the line
    search only. *)
Lemma default_budget_witness :
  __init__ get_line_search_method (Some (1 # 10000)%Q) default_options []
  = Ok (solver (Some (1 # 10000)%Q) (Some (1 # 10000)%Q) (Some 200%Z) []) /\
  fst (solve 201 (solver (Some (1 # 10000)%Q) (Some (1 # 10000)%Q)
                         (Some 200%Z) []) problem 0 (start 4)) <> OutOfFuel /\
  (forall fuel sol st',
     solve fuel (solver (Some (1 # 10000)%Q) (Some (1 # 10000)%Q)
                        (Some 200%Z) []) problem 0 (start 4) = (Ok sol, st') ->
     (0 <= Number_of_iterations sol <= 200)%Z).
Proof.
  split; [reflexivity|].
  exact (default_budget_bounds_solve get_line_search_method
           (Some (1 # 10000)%Q) default_options []
           (solver (Some (1 # 10000)%Q) (Some (1 # 10000)%Q) (Some 200%Z) [])
           problem 0 (start 4) eq_refl eq_refl).
Defined.

(** After three iterations the returned iterate is an object of the
    solver's. *)
Lemma solve_returns_new_object_witness :
  0 < next (start 4) /\
  (((3 = 0)%Z /\ 20 = 0) \/
   ((0 < 3)%Z /\ next (start 4) <= 20 /\ 20 < next (snd gtol_run))).
Proof.
  assert (H : 0 < next (start 4)) by (simpl; lia).
  split; [exact H|].
  exact (solve_returns_input_or_new_object 10
           (solver None (Some 1%Q) (Some 200%Z) []) problem 0 (start 4)
           (snd gtol_run) {| Optimizer := 20; Number_of_iterations := 3 |}
           H gtol_run_returns).
Defined.


(** The same run ends its output with the gradient-tolerance line. *)
Lemma solve_reports_gradient_witness :
  0 < next (start 4) /\
  (v_norm (gradient square (cells (snd gtol_run) 20%nat)) <= 1)%Q /\
  exists tr, trace (snd gtol_run) = tr ++ [EvPrint (GtolReached 3)].
Proof.
  assert (H : 0 < next (start 4)) by (simpl; lia).
  assert (Hle : (v_norm (gradient square (cells (snd gtol_run) 20%nat)) <= 1)%Q)
    by (vm_compute; discriminate).
  split; [exact H|]. split; [exact Hle|].
  exact (solve_reports_gradient_tolerance 10
           (solver None (Some 1%Q) (Some 200%Z) []) problem 0 (start 4)
           (snd gtol_run) {| Optimizer := 20; Number_of_iterations := 3 |} 1%Q
           H gtol_run_returns eq_refl eq_refl Hle).
Defined.


